(** * Wallet analysis engine of the crypto transaction tool

    A shallow embedding of [CryptoTransactionAnalyzer] (src/Code.py) and the
    properties of its wallet analysis: filtering, risk rules, velocity,
    counterparty aggregation.

    The embedding has two parts.
    - The first part is the analysis on the rows of a frame that carries the
      five transaction columns and whose amount column holds floats: a frame
      is the list of its rows.
    - The second part ([Frame], [analyze_wallet_on] and the functions beside
      it) follows the source again on the frames pandas can hand to it: the
      frame without columns that an empty record list gives, on which a
      column lookup raises [KeyError], and frames whose amount column is
      int64, on which [x.is_integer()] raises [AttributeError] when the
      interpreter's [int] has no such method. On a float64 frame with columns
      it returns what the first part returns.

    Modelling choices.
    - Amounts are exact rationals ([Q]); an amount is a whole number when its
      fraction reduces to denominator one ([float.is_integer]). Sums are
      exact, so only properties that do not depend on the rounding or the
      order of additions are stated about them.
    - A timestamp cell holds either the text read from the input or the
      instant [pd.to_datetime] parsed from it, in nanoseconds since the
      epoch. The parser itself is library code: it is a parameter of the
      model, and [iso8601] below is the instance used on concrete data.
    - Frames are objects in a store and are passed by reference, because
      [calculate_velocity] assigns to a column of the frame it is given. *)

From Stdlib Require Import Ascii String QArith Qminmax Lqa Sorting.Sorted Sorting.Permutation.
From stdpp Require Import gmap strings list.

Local Open Scope string_scope.
Local Open Scope list_scope.
Local Open Scope nat_scope.

(** ** Data model *)

Inductive TsCell : Type :=
| TsText (s : string)     (* the text of the input record *)
| TsStamp (ns : Z).       (* a parsed instant, nanoseconds since the epoch *)

Record Transaction : Type := mkTransaction {
  timestamp : TsCell;
  from_address : string;
  to_address : string;
  amount : Q;
  transaction_hash : string
}.

(** A frame is the list of its rows. *)
Abbreviation DataFrame := (list Transaction) (only parsing).

(** [self.risk_indicators], as [__init__] builds it. *)
Record SuspiciousPatterns : Type := {
  structuring : Q;
  velocity : Z;
  round_amounts : bool
}.

Record RiskIndicators : Type := {
  mixing_service : list string;
  high_risk_jurisdictions : list string;
  suspicious_patterns : SuspiciousPatterns
}.

Record CryptoTransactionAnalyzer : Type := {
  risk_indicators : RiskIndicators
}.

Definition init : CryptoTransactionAnalyzer :=
  {| risk_indicators :=
       {| mixing_service := ["tornado.cash"; "wasabi"; "samourai"];
          high_risk_jurisdictions := ["sanctioned-country-1"; "sanctioned-country-2"];
          suspicious_patterns :=
            {| structuring := 9999; velocity := 5; round_amounts := true |} |} |}.

(** ** Boolean series and row selection (the filter of [analyze_wallet]) *)

(** [series == value], element by element. *)
Definition series_eq (col : list string) (a : string) : list bool :=
  map (fun s => String.eqb s a) col.

(** [m1 | m2] and [m1 & m2] on boolean series of one frame. *)
Fixpoint series_or (m1 m2 : list bool) : list bool :=
  match m1, m2 with
  | b1 :: m1', b2 :: m2' => (b1 || b2) :: series_or m1' m2'
  | _, _ => []
  end.

Fixpoint series_and (m1 m2 : list bool) : list bool :=
  match m1, m2 with
  | b1 :: m1', b2 :: m2' => (b1 && b2) :: series_and m1' m2'
  | _, _ => []
  end.

(** [frame[mask]]: the rows whose mask entry is true, in frame order. *)
Fixpoint select_rows (df : DataFrame) (mask : list bool) : DataFrame :=
  match df, mask with
  | tx :: df', b :: mask' =>
      if b then tx :: select_rows df' mask' else select_rows df' mask'
  | _, _ => []
  end.

(** Lines 26-29: the rows where the wallet is sender or recipient. *)
Definition filter_by_address (transactions : DataFrame) (address : string) : DataFrame :=
  select_rows transactions
    (series_or (series_eq (map from_address transactions) address)
               (series_eq (map to_address transactions) address)).

(** The row predicate the filter is specified by. *)
Definition involves (address : string) (tx : Transaction) : bool :=
  String.eqb (from_address tx) address || String.eqb (to_address tx) address.


(** ** Risk rule engine ([check_risk_indicators]) *)

Definition Qlt_bool (x y : Q) : bool :=
  (Qnum x * QDen y <? Qnum y * QDen x)%Z.

(** [series > c] and [series < c]. *)
Definition series_gt (col : list Q) (c : Q) : list bool :=
  map (fun x => Qlt_bool c x) col.

Definition series_lt (col : list Q) (c : Q) : list bool :=
  map (fun x => Qlt_bool x c) col.

(** Python's [any] over a boolean series. *)
Fixpoint py_any (bs : list bool) : bool :=
  match bs with
  | [] => false
  | b :: bs' => if b then true else py_any bs'
  end.

(** [x.is_integer()]. *)
Definition is_integer (x : Q) : bool :=
  (Qnum x mod Zpos (Qden x) =? 0)%Z.

Definition mixing_finding (mixer : string) : string :=
  String.append "Interaction with mixing service: " mixer.

Definition structuring_finding : string := "Potential structuring detected".

Definition round_finding : string := "Multiple round-number transactions".

(** One turn of the loop over the configured mixers. *)
Definition check_mixer (transactions : DataFrame) (risks : list string) (mixer : string)
  : list string :=
  if py_any (series_eq (map to_address transactions) mixer)
  then risks ++ [mixing_finding mixer]
  else risks.

Definition check_risk_indicators (self : CryptoTransactionAnalyzer)
    (transactions : DataFrame) : list string :=
  let risks := [] in
  let risks :=
    fold_left (check_mixer transactions) (mixing_service (risk_indicators self)) risks in
  let amounts := map amount transactions in
  let risks :=
    if py_any (series_and (series_gt amounts 9900) (series_lt amounts 10000))
    then risks ++ [structuring_finding] else risks in
  let risks :=
    if round_amounts (suspicious_patterns (risk_indicators self))
    then if py_any (map is_integer amounts)
         then risks ++ [round_finding] else risks
    else risks in
  risks.

(** ** Counterparty aggregation *)

(** A Python [dict] from address to volume: an association list in insertion
    order, one entry per key. *)
Definition VolumeDict : Type := list (string * Q).

Fixpoint dict_get (d : VolumeDict) (k : string) (default : Q) : Q :=
  match d with
  | [] => default
  | (k', v) :: d' => if String.eqb k' k then v else dict_get d' k default
  end.

Fixpoint dict_set (d : VolumeDict) (k : string) (v : Q) : VolumeDict :=
  match d with
  | [] => [(k, v)]
  | (k', v') :: d' =>
      if String.eqb k' k then (k', v) :: d' else (k', v') :: dict_set d' k v
  end.

Record CounterpartyVolume : Type := {
  cp_address : string;
  cp_volume : Q
}.

(** Line 95: the other party of a transaction, seen from the wallet. *)
Definition counterparty_of (address : string) (tx : Transaction) : string :=
  if String.eqb (from_address tx) address then to_address tx else from_address tx.

(** Lines 94-96: the loop over [iterrows]. *)
Definition counterparty_volumes (address : string) (transactions : DataFrame) : VolumeDict :=
  fold_left
    (fun d tx =>
       let counterparty := counterparty_of address tx in
       dict_set d counterparty (dict_get d counterparty 0 + amount tx)%Q)
    transactions [].

(** [sorted(l, key=volume, reverse=True)]: stable, largest volume first. *)
Fixpoint insert_desc (x : CounterpartyVolume) (l : list CounterpartyVolume)
  : list CounterpartyVolume :=
  match l with
  | [] => [x]
  | y :: l' =>
      if Qlt_bool (cp_volume x) (cp_volume y) then y :: insert_desc x l' else x :: l
  end.

Definition sorted_desc (l : list CounterpartyVolume) : list CounterpartyVolume :=
  fold_right insert_desc [] l.

(** [l[:n]] for a Python integer [n]. *)
Definition py_slice_to {A : Type} (l : list A) (n : Z) : list A :=
  if (0 <=? n)%Z then firstn (Z.to_nat n) l
  else firstn (length l - Z.to_nat (- n)) l.

Definition get_top_counterparties (address : string) (transactions : DataFrame)
    (top_n : Z) : list CounterpartyVolume :=
  py_slice_to
    (sorted_desc
       (map (fun kv => {| cp_address := fst kv; cp_volume := snd kv |})
            (counterparty_volumes address transactions)))
    top_n.

(** [Series.unique()]: distinct values in order of first appearance. *)
Fixpoint unique_from (seen : list string) (col : list string) : list string :=
  match col with
  | [] => []
  | x :: col' =>
      if existsb (String.eqb x) seen then unique_from seen col'
      else x :: unique_from (x :: seen) col'
  end.

Definition unique (col : list string) : list string := unique_from [] col.

Record CounterpartyAnalysis : Type := {
  unique_counterparties : nat;
  top_counterparties : list CounterpartyVolume
}.

Definition sent_to (address : string) (transactions : DataFrame) : list string :=
  unique (map to_address
            (select_rows transactions
               (series_eq (map from_address transactions) address))).

Definition received_from (address : string) (transactions : DataFrame) : list string :=
  unique (map from_address
            (select_rows transactions
               (series_eq (map to_address transactions) address))).

(** [set(sent_to) | set(received_from)] *)
Definition counterparty_set (address : string) (transactions : DataFrame) : gset string :=
  list_to_set (sent_to address transactions)
    ∪ list_to_set (received_from address transactions).

Definition analyze_counterparties (address : string) (transactions : DataFrame)
  : CounterpartyAnalysis :=
  {| unique_counterparties := size (counterparty_set address transactions);
     top_counterparties := get_top_counterparties address transactions 5 |}.

(** ** The store of frames and the monad of effects *)

Inductive exn : Type :=
| ParseError    (* [pd.to_datetime] rejects a text *)
| TypeError     (* arithmetic on a cell that is not an instant *)
| KeyError.     (* no frame under this reference *)

Inductive result (A : Type) : Type :=
| Ok (a : A)
| Raise (e : exn).
Arguments Ok {A} a.
Arguments Raise {A} e.

(** Frames live in a store; a frame reference is its position there. *)
Abbreviation Store := (list DataFrame) (only parsing).

Definition M (A : Type) : Type := Store -> result A * Store.

Definition ret {A : Type} (a : A) : M A := fun st => (Ok a, st).

Definition raise {A : Type} (e : exn) : M A := fun st => (Raise e, st).

Definition bind {A B : Type} (m : M A) (k : A -> M B) : M B :=
  fun st =>
    match m st with
    | (Ok a, st') => k a st'
    | (Raise e, st') => (Raise e, st')
    end.

Notation "'do' x <- m ; k" := (bind m (fun x => k))
  (at level 10, x name, m at level 100, k at level 200).

(** Reading the frame behind a reference. *)
Definition frame (r : nat) : M DataFrame :=
  fun st =>
    match st !! r with
    | Some df => (Ok df, st)
    | None => (Raise KeyError, st)
    end.

(** A new frame object, as indexing by a boolean mask returns. *)
Definition new_frame (df : DataFrame) : M nat :=
  fun st => (Ok (length st), st ++ [df]).

Definition set_timestamp (tx : Transaction) (c : TsCell) : Transaction :=
  {| timestamp := c;
     from_address := from_address tx;
     to_address := to_address tx;
     amount := amount tx;
     transaction_hash := transaction_hash tx |}.

Fixpoint assign_timestamp (df : DataFrame) (col : list TsCell) : DataFrame :=
  match df, col with
  | tx :: df', c :: col' => set_timestamp tx c :: assign_timestamp df' col'
  | _, _ => []
  end.

(** [frame['timestamp'] = col]: the frame behind [r] gets a new column. *)
Definition setitem_timestamp (r : nat) (col : list TsCell) : M unit :=
  fun st =>
    match st !! r with
    | Some df => (Ok tt, <[r := assign_timestamp df col]> st)
    | None => (Raise KeyError, st)
    end.

(** ** Velocity ([calculate_velocity]) *)

Record Velocity : Type := {
  hourly_avg : Q;
  daily_avg : Q
}.

(** Python's [max(a, b)]: [b] only when it is strictly larger. *)
Definition py_max (a b : Q) : Q := if Qlt_bool a b then b else a.

(** [Timedelta.total_seconds()] of a span in nanoseconds. *)
Definition total_seconds (ns : Z) : Q := inject_Z ns / 1000000000.

Definition stamp_of (c : TsCell) : option Z :=
  match c with
  | TsStamp ns => Some ns
  | TsText _ => None
  end.

Fixpoint stamps_of (col : list TsCell) : option (list Z) :=
  match col with
  | [] => Some []
  | c :: col' =>
      match stamp_of c, stamps_of col' with
      | Some ns, Some l => Some (ns :: l)
      | _, _ => None
      end
  end.

(** [Series.max()] and [Series.min()] of a column of instants. *)
Definition series_max (col : list TsCell) : M Z :=
  match stamps_of col with
  | Some (ns :: l) => ret (fold_left Z.max l ns)
  | _ => raise TypeError
  end.

Definition series_min (col : list TsCell) : M Z :=
  match stamps_of col with
  | Some (ns :: l) => ret (fold_left Z.min l ns)
  | _ => raise TypeError
  end.

Definition velocity_metrics (count : nat) (time_range : Z) : Velocity :=
  let hours := (total_seconds time_range / 3600)%Q in
  {| hourly_avg := (inject_Z (Z.of_nat count) / py_max hours 1)%Q;
     daily_avg := (inject_Z (Z.of_nat count) / py_max (hours / 24) 1)%Q |}.

Section Analyzer.

(** [pd.to_datetime] on one text: the instant, or nothing when it raises. *)
Variable to_datetime : string -> option Z.

Definition cell_to_datetime (c : TsCell) : option Z :=
  match c with
  | TsText s => to_datetime s
  | TsStamp ns => Some ns
  end.

(** [pd.to_datetime] on a column: all cells parse, or the call raises. *)
Fixpoint column_to_datetime (col : list TsCell) : option (list Z) :=
  match col with
  | [] => Some []
  | c :: col' =>
      match cell_to_datetime c, column_to_datetime col' with
      | Some ns, Some l => Some (ns :: l)
      | _, _ => None
      end
  end.

Definition pd_to_datetime (col : list TsCell) : M (list TsCell) :=
  match column_to_datetime col with
  | Some l => ret (map TsStamp l)
  | None => raise ParseError
  end.

Definition calculate_velocity (transactions : nat) : M Velocity :=
  do df <- frame transactions;
  if length df =? 0 then ret {| hourly_avg := 0; daily_avg := 0 |}
  else
    do parsed <- pd_to_datetime (map timestamp df);
    do _ <- setitem_timestamp transactions parsed;
    do df <- frame transactions;
    do hi <- series_max (map timestamp df);
    do lo <- series_min (map timestamp df);
    let time_range := (hi - lo)%Z in
    do df <- frame transactions;
    ret (velocity_metrics (length df) time_range).

(** ** The orchestrator ([analyze_wallet]) *)

Record WalletAnalysis : Type := {
  address : string;
  total_transactions : nat;
  total_volume : Q;
  found_risk_indicators : list string;   (* key ['risk_indicators'] *)
  transaction_velocity : Velocity;
  counterparties : CounterpartyAnalysis
}.

(** [Series.sum()]. *)
Definition series_sum (col : list Q) : Q := fold_left Qplus col 0%Q.

Definition analyze_wallet (self : CryptoTransactionAnalyzer) (addr : string)
    (transactions : nat) : M WalletAnalysis :=
  do df <- frame transactions;
  do wallet_txs <- new_frame (filter_by_address df addr);
  do w <- frame wallet_txs;
  let n := length w in
  let vol := series_sum (map amount w) in
  let risks := check_risk_indicators self w in
  do vel <- calculate_velocity wallet_txs;
  do w <- frame wallet_txs;
  let cps := analyze_counterparties addr w in
  ret {| address := addr;
         total_transactions := n;
         total_volume := vol;
         found_risk_indicators := risks;
         transaction_velocity := vel;
         counterparties := cps |}.

End Analyzer.

(** ** ISO-8601 texts of the form [YYYY-MM-DDTHH:MM:SS]

    The instance of the parser for the timestamps of the sample data. *)

Definition digit (c : ascii) : option Z :=
  let n := nat_of_ascii c in
  if (48 <=? n) && (n <=? 57) then Some (Z.of_nat (n - 48)) else None.

Fixpoint digits (cs : list ascii) (acc : Z) : option Z :=
  match cs with
  | [] => Some acc
  | c :: cs' =>
      match digit c with
      | Some d => digits cs' (10 * acc + d)%Z
      | None => None
      end
  end.

Definition is_leap (y : Z) : bool :=
  ((y mod 4 =? 0) && negb (y mod 100 =? 0) || (y mod 400 =? 0))%Z.

Definition days_in_month (y m : Z) : Z :=
  if (m =? 2)%Z then (if is_leap y then 29 else 28)%Z
  else if ((m =? 4) || (m =? 6) || (m =? 9) || (m =? 11))%Z then 30%Z
  else 31%Z.

(** Days from 1970-01-01 to the given date of the Gregorian calendar. *)
Definition days_from_civil (y m d : Z) : Z :=
  let y' := (if m <=? 2 then y - 1 else y)%Z in
  let era := (y' / 400)%Z in
  let yoe := (y' - era * 400)%Z in
  let mp := (if 2 <? m then m - 3 else m + 9)%Z in
  let doy := ((153 * mp + 2) / 5 + d - 1)%Z in
  let doe := (yoe * 365 + yoe / 4 - yoe / 100 + doy)%Z in
  (era * 146097 + doe - 719468)%Z.

Definition iso8601 (s : string) : option Z :=
  match list_ascii_of_string s with
  | [y1; y2; y3; y4; "-"; m1; m2; "-"; d1; d2; "T"; h1; h2; ":"; n1; n2; ":"; s1; s2]%char =>
      match digits [y1; y2; y3; y4] 0, digits [m1; m2] 0, digits [d1; d2] 0,
            digits [h1; h2] 0, digits [n1; n2] 0, digits [s1; s2] 0 with
      | Some y, Some m, Some d, Some h, Some n, Some sec =>
          if ((1 <=? m) && (m <=? 12) && (1 <=? d) && (d <=? days_in_month y m)
              && (h <? 24) && (n <? 60) && (sec <? 60))%Z
          then Some ((((days_from_civil y m d * 24 + h) * 60 + n) * 60 + sec)
                     * 1000000000)%Z
          else None
      | _, _, _, _, _, _ => None
      end
  | _ => None
  end.

(** ** Sample data *)

(** A record as the data-source adapter delivers it (the hash is not read by
    the analysis). *)
Definition mk_tx (t sender recipient : string) (a : Q) : Transaction :=
  {| timestamp := TsText t; from_address := sender; to_address := recipient;
     amount := a; transaction_hash := "0xabc..." |}.

(** The example scenario of the specification. *)
Definition example_transactions : DataFrame :=
  [ mk_tx "2024-01-01T10:00:00" "A" "B" 1.5;
    mk_tx "2024-01-01T11:00:00" "B" "A" 2.0 ].

(** ** Vocabulary of the properties *)

(** [mixer in frame['to_address'].values] *)
Definition mixer_hit (transactions : DataFrame) (mixer : string) : bool :=
  py_any (series_eq (map to_address transactions) mixer).

(** The amount of a row lies strictly between 9900 and 10000. *)
Definition near_threshold (t : Transaction) : bool :=
  Qlt_bool 9900 (amount t) && Qlt_bool (amount t) 10000.

(** The body of the loop of [get_top_counterparties]. *)
Definition add_volume (address : string) (d : VolumeDict) (t : Transaction) : VolumeDict :=
  dict_set d (counterparty_of address t)
    (dict_get d (counterparty_of address t) 0 + amount t)%Q.

(** The amounts of the rows attributed to counterparty [k]. *)
Definition attributed (address : string) (transactions : DataFrame) (k : string) : Q :=
  series_sum
    (map amount
       (List.filter (fun t => String.eqb (counterparty_of address t) k) transactions)).

(** [x] may stand before [y] in a ranking by decreasing volume. *)
Definition volume_ge (x y : CounterpartyVolume) : Prop :=
  (cp_volume y <= cp_volume x)%Q.

Definition ranking (address : string) (transactions : DataFrame) : list CounterpartyVolume :=
  sorted_desc
    (map (fun kv => {| cp_address := fst kv; cp_volume := snd kv |})
       (counterparty_volumes address transactions)).

(** The span of a subset in hours, as [calculate_velocity] computes it. *)
Definition span_hours (time_range : Z) : Q := (total_seconds time_range / 3600)%Q.

(** [max(timestamp) - min(timestamp)] over the parsed instants. *)
Definition time_range_of (stamps : list Z) : Z :=
  match stamps with
  | [] => 0
  | ns :: l => fold_left Z.max l ns - fold_left Z.min l ns
  end.

(** The frame as [calculate_velocity] leaves it: the timestamp column holds
    the parsed instants, the other columns are as before. *)
Definition with_parsed_timestamps (df : DataFrame) (stamps : list Z) : DataFrame :=
  assign_timestamp df (map TsStamp stamps).

(** Ten rows within the minute 10:00 of 2024-01-01. *)
Definition burst : DataFrame :=
  [ mk_tx "2024-01-01T10:00:00" "A" "B" 1.5;
    mk_tx "2024-01-01T10:00:05" "B" "A" 2.5;
    mk_tx "2024-01-01T10:00:10" "A" "C" 0.5;
    mk_tx "2024-01-01T10:00:15" "C" "A" 1.25;
    mk_tx "2024-01-01T10:00:20" "A" "B" 3.5;
    mk_tx "2024-01-01T10:00:25" "B" "A" 4.5;
    mk_tx "2024-01-01T10:00:30" "A" "C" 0.75;
    mk_tx "2024-01-01T10:00:35" "C" "A" 1.5;
    mk_tx "2024-01-01T10:00:40" "A" "B" 2.5;
    mk_tx "2024-01-01T10:00:59" "B" "A" 3.5 ].

(** An entry of the ranking, from an item of the volume dictionary. *)
Definition entry_of (kv : string * Q) : CounterpartyVolume :=
  {| cp_address := fst kv; cp_volume := snd kv |}.

(** The entry carries the volume [v]. *)
Definition same_volume (v : Q) (cp : CounterpartyVolume) : bool :=
  Qeq_bool (cp_volume cp) v.

(** The findings the rule engine can emit, in rule order. *)
Definition all_findings (self : CryptoTransactionAnalyzer) : list string :=
  map mixing_finding (mixing_service (risk_indicators self))
  ++ [structuring_finding; round_finding].

(** Sample rows outside any one wallet: C pays D, then A pays B. *)
Definition mixed_transactions : DataFrame :=
  [ mk_tx "2024-01-01T09:00:00" "C" "D" 4;
    mk_tx "2024-01-01T10:00:00" "A" "B" 1.5 ].

(** What [calculate_velocity] returns for a frame with these rows. *)
Definition velocity_of (to_datetime : string -> option Z) (df : DataFrame)
  : result Velocity :=
  match df with
  | [] => Ok {| hourly_avg := 0; daily_avg := 0 |}
  | _ :: _ =>
      match column_to_datetime to_datetime (map timestamp df) with
      | Some stamps => Ok (velocity_metrics (length df) (time_range_of stamps))
      | None => Raise ParseError
      end
  end.

(** What [analyze_wallet] returns when the wallet subset has these rows. *)
Definition analysis_of (to_datetime : string -> option Z)
    (self : CryptoTransactionAnalyzer) (addr : string) (w : DataFrame)
  : result WalletAnalysis :=
  match velocity_of to_datetime w with
  | Ok vel =>
      Ok {| address := addr;
            total_transactions := length w;
            total_volume := series_sum (map amount w);
            found_risk_indicators := check_risk_indicators self w;
            transaction_velocity := vel;
            counterparties := analyze_counterparties addr w |}
  | Raise e => Raise e
  end.

(** Sample rows with an unreadable timestamp on a row between C and D. *)
Definition dirty_transactions : DataFrame :=
  [ mk_tx "not a date" "C" "D" 4;
    mk_tx "2024-01-01T10:00:00" "A" "B" 1.5 ].

(** * Frames as pandas builds them

    The definitions above are the analysis on a frame that carries the
    transaction columns and whose amount column holds floats. Two further
    kinds of frame reach the code, and it raises on both:
    - [pd.DataFrame] of an empty record list has no columns, so
      [frame['from_address']] raises [KeyError];
    - when every amount of the records is an integer the amount column has
      dtype int64, and [x.is_integer()] raises [AttributeError] on an
      interpreter whose [int] has no such method (Python before 3.12).
    The definitions below follow the source again on frames of all three
    kinds; on the float kind they return what the definitions above
    return. *)

Inductive AmountDtype : Type :=
| Int64       (* every amount of the records is an integer *)
| Float64.    (* some amount is a float; integers are stored as floats *)

Inductive Frame : Type :=
| NoColumns                                          (* [pd.DataFrame([])] *)
| Table (dtype : AmountDtype) (rows : list Transaction).

(** The rows of a frame: [len(frame)], [frame.iterrows()]. *)
Definition frame_rows (fr : Frame) : list Transaction :=
  match fr with
  | NoColumns => []
  | Table _ rows => rows
  end.

Inductive raised : Type :=
| ColumnKeyError (column : string)  (* [KeyError: column] *)
| IsIntegerAttributeError           (* ['int' object has no attribute 'is_integer'] *)
| DatetimeParseError                (* [pd.to_datetime] rejects a text *)
| NotAnInstant                      (* arithmetic on a cell that is not an instant *)
| NoSuchFrame.                      (* no frame under this reference *)

Inductive outcome (A : Type) : Type :=
| Returns (a : A)
| Raises (e : raised).
Arguments Returns {A} a.
Arguments Raises {A} e.

Definition obind {A B : Type} (m : outcome A) (k : A -> outcome B) : outcome B :=
  match m with
  | Returns a => k a
  | Raises e => Raises e
  end.

Notation "'attempt' x <- m ; k" := (obind m (fun x => k))
  (at level 10, x name, m at level 100, k at level 200).

(** [frame[column]] *)
Definition getitem {A : Type} (column : string) (cell : Transaction -> A) (fr : Frame)
  : outcome (list A) :=
  match fr with
  | NoColumns => Raises (ColumnKeyError column)
  | Table _ rows => Returns (map cell rows)
  end.

(** [frame[mask]]: a new frame of the same columns and dtypes. *)
Definition getitem_mask (fr : Frame) (mask : list bool) : Frame :=
  match fr with
  | NoColumns => NoColumns
  | Table dtype rows => Table dtype (select_rows rows mask)
  end.

(** Lines 26-29. *)
Definition filter_frame_by_address (transactions : Frame) (address : string)
  : outcome Frame :=
  attempt senders <- getitem "from_address" from_address transactions;
  attempt recipients <- getitem "to_address" to_address transactions;
  Returns (getitem_mask transactions
             (series_or (series_eq senders address) (series_eq recipients address))).

(** Frames in a store, as before. *)
Definition FM (A : Type) : Type := list Frame -> outcome A * list Frame.

Definition fret {A : Type} (a : A) : FM A := fun st => (Returns a, st).

Definition fraise {A : Type} (e : raised) : FM A := fun st => (Raises e, st).

Definition flift {A : Type} (m : outcome A) : FM A := fun st => (m, st).

Definition fbind {A B : Type} (m : FM A) (k : A -> FM B) : FM B :=
  fun st =>
    match m st with
    | (Returns a, st') => k a st'
    | (Raises e, st') => (Raises e, st')
    end.

Notation "'step' x <- m ; k" := (fbind m (fun x => k))
  (at level 10, x name, m at level 100, k at level 200).

Definition fframe (r : nat) : FM Frame :=
  fun st =>
    match st !! r with
    | Some fr => (Returns fr, st)
    | None => (Raises NoSuchFrame, st)
    end.

Definition fnew_frame (fr : Frame) : FM nat :=
  fun st => (Returns (length st), st ++ [fr]).

(** [frame['timestamp'] = col] on a frame that has its columns; on the
    frame without columns the assignment is never reached (line 65
    returns first), and the model leaves that frame alone. *)
Definition fsetitem_timestamp (r : nat) (col : list TsCell) : FM unit :=
  fun st =>
    match st !! r with
    | Some (Table dtype rows) =>
        (Returns tt, <[r := Table dtype (assign_timestamp rows col)]> st)
    | Some NoColumns => (Returns tt, st)
    | None => (Raises NoSuchFrame, st)
    end.

Definition fseries_max (col : list TsCell) : FM Z :=
  match stamps_of col with
  | Some (ns :: l) => fret (fold_left Z.max l ns)
  | _ => fraise NotAnInstant
  end.

Definition fseries_min (col : list TsCell) : FM Z :=
  match stamps_of col with
  | Some (ns :: l) => fret (fold_left Z.min l ns)
  | _ => fraise NotAnInstant
  end.

Section FrameAnalyzer.

(** The interpreter's [int] has the method [is_integer] (Python 3.12 on). *)
Variable int_has_is_integer : bool.

Variable to_datetime : string -> option Z.

(** [amounts.apply(lambda x: x.is_integer())]: the lambda is called once per
    element, with a float of a float64 column and an int of an int64 one. *)
Definition apply_is_integer (fr : Frame) (amounts : list Q) : outcome (list bool) :=
  match fr, amounts with
  | Table Int64 _, _ :: _ =>
      if int_has_is_integer then Returns (map (fun _ => true) amounts)
      else Raises IsIntegerAttributeError
  | _, _ => Returns (map is_integer amounts)
  end.

(** Lines 47-49, one turn of the loop. *)
Definition check_mixer_on (transactions : Frame) (risks : outcome (list string))
    (mixer : string) : outcome (list string) :=
  attempt risks <- risks;
  attempt recipients <- getitem "to_address" to_address transactions;
  Returns (if py_any (series_eq recipients mixer)
           then risks ++ [mixing_finding mixer] else risks).

(** Lines 42-61. *)
Definition check_risk_indicators_on (self : CryptoTransactionAnalyzer)
    (transactions : Frame) : outcome (list string) :=
  attempt risks <-
    fold_left (check_mixer_on transactions)
      (mixing_service (risk_indicators self)) (Returns []);
  attempt amounts <- getitem "amount" amount transactions;
  let risks :=
    if py_any (series_and (series_gt amounts 9900) (series_lt amounts 10000))
    then risks ++ [structuring_finding] else risks in
  if round_amounts (suspicious_patterns (risk_indicators self))
  then
    attempt whole <- apply_is_integer transactions amounts;
    Returns (if py_any whole then risks ++ [round_finding] else risks)
  else Returns risks.

Definition fpd_to_datetime (col : list TsCell) : FM (list TsCell) :=
  match column_to_datetime to_datetime col with
  | Some l => fret (map TsStamp l)
  | None => fraise DatetimeParseError
  end.

(** Lines 63-75. *)
Definition calculate_velocity_on (transactions : nat) : FM Velocity :=
  step fr <- fframe transactions;
  if length (frame_rows fr) =? 0 then fret {| hourly_avg := 0; daily_avg := 0 |}
  else
    step texts <- flift (getitem "timestamp" timestamp fr);
    step parsed <- fpd_to_datetime texts;
    step _ <- fsetitem_timestamp transactions parsed;
    step fr <- fframe transactions;
    step col <- flift (getitem "timestamp" timestamp fr);
    step hi <- fseries_max col;
    step lo <- fseries_min col;
    let time_range := (hi - lo)%Z in
    step fr <- fframe transactions;
    fret (velocity_metrics (length (frame_rows fr)) time_range).

(** Lines 77-88; [get_top_counterparties] walks the rows and reads no
    column of the frame as a whole. *)
Definition analyze_counterparties_on (address : string) (transactions : Frame)
  : outcome CounterpartyAnalysis :=
  attempt senders <- getitem "from_address" from_address transactions;
  attempt sent <-
    getitem "to_address" to_address
      (getitem_mask transactions (series_eq senders address));
  attempt recipients <- getitem "to_address" to_address transactions;
  attempt received <-
    getitem "from_address" from_address
      (getitem_mask transactions (series_eq recipients address));
  Returns
    {| unique_counterparties :=
         size (list_to_set (unique sent) ∪ list_to_set (unique received)
               : gset string);
       top_counterparties :=
         get_top_counterparties address (frame_rows transactions) 5 |}.

(** Lines 24-40. *)
Definition analyze_wallet_on (self : CryptoTransactionAnalyzer) (addr : string)
    (transactions : nat) : FM WalletAnalysis :=
  step fr <- fframe transactions;
  step subset <- flift (filter_frame_by_address fr addr);
  step wallet_txs <- fnew_frame subset;
  step w <- fframe wallet_txs;
  let n := length (frame_rows w) in
  step amounts <- flift (getitem "amount" amount w);
  let vol := series_sum amounts in
  step risks <- flift (check_risk_indicators_on self w);
  step vel <- calculate_velocity_on wallet_txs;
  step w <- fframe wallet_txs;
  step cps <- flift (analyze_counterparties_on addr w);
  fret {| address := addr;
          total_transactions := n;
          total_volume := vol;
          found_risk_indicators := risks;
          transaction_velocity := vel;
          counterparties := cps |}.

End FrameAnalyzer.

(** What the risk rules return on a frame with an int64 amount column when
    the interpreter's [int] has [is_integer]: every amount is whole. *)
Definition int_findings (self : CryptoTransactionAnalyzer) (rows : list Transaction)
  : list string :=
  map mixing_finding
    (List.filter (mixer_hit rows) (mixing_service (risk_indicators self)))
  ++ (if py_any (map near_threshold rows) then [structuring_finding] else [])
  ++ (if round_amounts (suspicious_patterns (risk_indicators self))
         && negb (length rows =? 0)
      then [round_finding] else []).

(** The claim's sample amounts, as a ledger of JSON integers gives them. *)
Definition integer_ledger : Frame :=
  Table Int64 [mk_tx "2024-01-01T10:00:00" "A" "B" 9950].

Definition integer_ledger_below_above : Frame :=
  Table Int64 [mk_tx "2024-01-01T10:00:00" "A" "B" 9899;
               mk_tx "2024-01-01T11:00:00" "B" "A" 10000].

(** * Properties *)

(** ** Filtering *)

Lemma filter_by_address_filter (T : DataFrame) (a : string) :
  filter_by_address T a = List.filter (involves a) T.
Proof.
  unfold filter_by_address, series_eq.
  induction T as [|t T IH]; simpl; [reflexivity|].
  unfold involves at 1. destruct (_ || _); simpl; now rewrite IH.
Qed.

Lemma involves_true (a : string) (t : Transaction) :
  involves a t = true <-> from_address t = a \/ to_address t = a.
Proof.
  unfold involves. rewrite orb_true_iff, !String.eqb_eq. reflexivity.
Qed.

Lemma filter_sublist {A : Type} (f : A -> bool) (l : list A) :
  sublist (List.filter f l) l.
Proof.
  induction l as [|x l IH]; simpl; [constructor|].
  destruct (f x); now constructor.
Qed.

Lemma filter_filter_same {A : Type} (f : A -> bool) (l : list A) :
  List.filter f (List.filter f l) = List.filter f l.
Proof.
  induction l as [|x l IH]; simpl; [reflexivity|].
  destruct (f x) eqn:E; simpl; [rewrite E, IH|]; auto.
Qed.

(** On the rows of a frame that has its columns, the filtered subset is
    exactly the rows whose sender or recipient is the address: it is the
    input with the other rows struck out, so order and multiplicity are kept
    and a self-transfer occurs once per input row; no rows give no rows;
    filtering twice is filtering once. *)
Theorem filter_by_address_exact (T : DataFrame) (a : string) :
  filter_by_address T a = List.filter (involves a) T
  /\ (forall t, In t (filter_by_address T a) <->
                In t T /\ (from_address t = a \/ to_address t = a))
  /\ sublist (filter_by_address T a) T
  /\ filter_by_address [] a = []
  /\ filter_by_address (filter_by_address T a) a = filter_by_address T a.
Proof.
  repeat split.
  - apply filter_by_address_filter.
  - rewrite filter_by_address_filter in H. apply filter_In in H. tauto.
  - rewrite filter_by_address_filter in H. apply filter_In in H.
    now apply involves_true.
  - intros [Hin Hinv]. rewrite filter_by_address_filter. apply filter_In.
    split; [assumption | now apply involves_true].
  - rewrite filter_by_address_filter. apply filter_sublist.
  - rewrite !filter_by_address_filter. apply filter_filter_same.
Qed.

(** A self-transfer is one row of the subset, not two. *)
Example filter_self_transfer_once :
  filter_by_address
    [ mk_tx "2024-01-01T10:00:00" "A" "A" 1; mk_tx "2024-01-01T11:00:00" "B" "C" 2 ] "A"
  = [ mk_tx "2024-01-01T10:00:00" "A" "A" 1 ].
Proof. reflexivity. Qed.

(** ** Risk rules *)

Lemma Qlt_bool_iff (x y : Q) : Qlt_bool x y = true <-> (x < y)%Q.
Proof. unfold Qlt_bool, Qlt. apply Z.ltb_lt. Qed.

Lemma py_any_map {A : Type} (f : A -> bool) (l : list A) :
  py_any (map f l) = true <-> exists x, In x l /\ f x = true.
Proof.
  induction l as [|x l IH]; simpl.
  - split; [discriminate | intros (x & [] & _)].
  - destruct (f x) eqn:E.
    + split; [intros _; exists x; auto | reflexivity].
    + rewrite IH. split.
      * intros (y & Hy & Hf). exists y. auto.
      * intros (y & [-> | Hy] & Hf); [congruence | exists y; auto].
Qed.

Lemma series_and_map {A : Type} (f g : A -> bool) (l : list A) :
  series_and (map f l) (map g l) = map (fun x => f x && g x) l.
Proof. induction l as [|x l IH]; simpl; [reflexivity | now rewrite IH]. Qed.

Lemma mixer_hit_iff (txs : DataFrame) (m : string) :
  mixer_hit txs m = true <-> exists t, In t txs /\ to_address t = m.
Proof.
  unfold mixer_hit, series_eq. rewrite map_map, py_any_map.
  split; intros (t & Hin & H); exists t; split; auto; now apply String.eqb_eq.
Qed.

Lemma fold_check_mixer (txs : DataFrame) (ms : list string) (acc : list string) :
  fold_left (check_mixer txs) ms acc
  = acc ++ map mixing_finding (List.filter (mixer_hit txs) ms).
Proof.
  revert acc. induction ms as [|m ms IH]; intros acc; simpl.
  - now rewrite app_nil_r.
  - rewrite IH. unfold check_mixer. fold (mixer_hit txs m).
    destruct (mixer_hit txs m); simpl; [now rewrite <- app_assoc | reflexivity].
Qed.

(** The findings, rule by rule, in rule order. *)
Lemma check_risk_indicators_rules (self : CryptoTransactionAnalyzer) (txs : DataFrame) :
  check_risk_indicators self txs
  = map mixing_finding
      (List.filter (mixer_hit txs) (mixing_service (risk_indicators self)))
    ++ (if py_any (map near_threshold txs) then [structuring_finding] else [])
    ++ (if round_amounts (suspicious_patterns (risk_indicators self))
           && py_any (map (fun t => is_integer (amount t)) txs)
        then [round_finding] else []).
Proof.
  unfold check_risk_indicators, series_gt, series_lt.
  rewrite fold_check_mixer, series_and_map, !map_map. simpl.
  fold near_threshold.
  change (fun x : Transaction => Qlt_bool 9900 (amount x) && Qlt_bool (amount x) 10000)
    with near_threshold.
  destruct (py_any (map near_threshold txs));
    destruct (round_amounts _); simpl;
    try destruct (py_any (map (fun t => is_integer (amount t)) txs)); simpl;
    rewrite ?app_nil_r, <- ?app_assoc; reflexivity.
Qed.

Lemma mixing_finding_inj (m m' : string) :
  mixing_finding m = mixing_finding m' -> m = m'.
Proof. unfold mixing_finding. simpl. intros H. now inversion H. Qed.

Lemma mixing_finding_not_structuring (m : string) :
  mixing_finding m <> structuring_finding.
Proof. discriminate. Qed.

Lemma mixing_finding_not_round (m : string) : mixing_finding m <> round_finding.
Proof. discriminate. Qed.

Lemma count_occ_mixing_other (ms : list string) (s : string) :
  (forall m, mixing_finding m <> s) ->
  count_occ string_dec (map mixing_finding ms) s = 0.
Proof.
  intros H. apply count_occ_not_In. intros Hin.
  apply in_map_iff in Hin as (m & Hm & _). now apply (H m).
Qed.

Lemma near_threshold_iff (txs : DataFrame) :
  py_any (map near_threshold txs) = true <->
  exists t, In t txs /\ (9900 < amount t)%Q /\ (amount t < 10000)%Q.
Proof.
  rewrite py_any_map. unfold near_threshold.
  split; intros (t & Hin & H); exists t; split; auto.
  - apply andb_true_iff in H. now rewrite <- !Qlt_bool_iff.
  - apply andb_true_iff. now rewrite !Qlt_bool_iff.
Qed.

Lemma count_structuring (self : CryptoTransactionAnalyzer) (txs : DataFrame) :
  count_occ string_dec (check_risk_indicators self txs) structuring_finding
  = if py_any (map near_threshold txs) then 1 else 0.
Proof.
  rewrite check_risk_indicators_rules, !count_occ_app.
  rewrite count_occ_mixing_other by apply mixing_finding_not_structuring.
  destruct (py_any (map near_threshold txs));
    destruct (_ && _); reflexivity.
Qed.

(** On a float64 amount column the structuring finding is emitted once when
    some amount of the subset lies strictly between 9900 and 10000, and not
    at all otherwise, whatever the number of such amounts; amounts 9899 and
    10000 do not qualify. *)
Theorem structuring_rule (self : CryptoTransactionAnalyzer) (txs : DataFrame) :
  let n := count_occ string_dec (check_risk_indicators self txs) structuring_finding in
  (n = 1 <-> exists t, In t txs /\ (9900 < amount t)%Q /\ (amount t < 10000)%Q)
  /\ (n = 0 <-> ~ exists t, In t txs /\ (9900 < amount t)%Q /\ (amount t < 10000)%Q)
  /\ ((forall t, In t txs -> (amount t == 9899)%Q \/ (amount t == 10000)%Q) ->
      ~ In structuring_finding (check_risk_indicators self txs)).
Proof.
  cbv zeta. rewrite count_structuring, <- near_threshold_iff.
  destruct (py_any (map near_threshold txs)) eqn:E.
  - split; [tauto|]. split; [split; [discriminate | intros H; now contradiction H]|].
    intros Hall. exfalso.
    apply near_threshold_iff in E as (t & Hin & Hlo & Hhi).
    destruct (Hall t Hin) as [H | H]; rewrite H in *;
      [now apply Qlt_bool_iff in Hlo | now apply Qlt_bool_iff in Hhi].
  - split; [split; discriminate|]. split; [split; [discriminate | reflexivity]|].
    intros _. rewrite (count_occ_not_In string_dec), count_structuring, E.
    reflexivity.
Qed.

Lemma structuring_rule_witness :
  count_occ string_dec
    (check_risk_indicators init [mk_tx "2024-01-01T10:00:00" "A" "B" 9950])
    structuring_finding = 1
  /\ ~ In structuring_finding
       (check_risk_indicators init
          [mk_tx "2024-01-01T10:00:00" "A" "B" 9899;
           mk_tx "2024-01-01T11:00:00" "B" "A" 10000]).
Proof.
  split.
  - apply (proj1 (structuring_rule init [mk_tx "2024-01-01T10:00:00" "A" "B" 9950])).
    eexists. split; [left; reflexivity|]. split; reflexivity.
  - apply (proj2 (proj2 (structuring_rule init
             [mk_tx "2024-01-01T10:00:00" "A" "B" 9899;
              mk_tx "2024-01-01T11:00:00" "B" "A" 10000]))).
    intros t [<- | [<- | []]]; [left | right]; reflexivity.
Defined.

(** Several qualifying amounts still give one finding. *)
Example structuring_many_one_finding :
  check_risk_indicators init
    [mk_tx "2024-01-01T10:00:00" "A" "B" 9950.5;
     mk_tx "2024-01-01T11:00:00" "A" "C" 9990.25;
     mk_tx "2024-01-01T12:00:00" "A" "D" 9901.75]
  = [structuring_finding].
Proof. reflexivity. Qed.






(** ** Counterparties *)

Lemma select_rows_series_eq (col : Transaction -> string) (txs : DataFrame) (a : string) :
  select_rows txs (series_eq (map col txs) a)
  = List.filter (fun t => String.eqb (col t) a) txs.
Proof.
  unfold series_eq. induction txs as [|t txs IH]; simpl; [reflexivity|].
  destruct (String.eqb (col t) a); now rewrite IH.
Qed.

Lemma existsb_eqb_In (x : string) (l : list string) :
  existsb (String.eqb x) l = true <-> In x l.
Proof.
  rewrite existsb_exists. split.
  - intros (y & Hy & E). apply String.eqb_eq in E. now subst.
  - intros H. exists x. split; [assumption | apply String.eqb_refl].
Qed.

Lemma unique_from_In (seen col : list string) (x : string) :
  In x (unique_from seen col) <-> In x col /\ ~ In x seen.
Proof.
  revert seen. induction col as [|y col IH]; intros seen; simpl; [tauto|].
  destruct (existsb (String.eqb y) seen) eqn:E.
  - apply existsb_eqb_In in E. rewrite IH. split.
    + tauto.
    + intros [[-> | H] Hn]; tauto.
  - assert (Hy : ~ In y seen) by (rewrite <- existsb_eqb_In; congruence).
    simpl. rewrite IH. simpl. split.
    + intros [-> | [H Hn]]; [tauto|]. split; [tauto|]. intros H'. apply Hn. now right.
    + intros [[-> | H] Hn]; [now left|].
      destruct (string_dec y x) as [-> | Hne]; [now left|]. right. split; [assumption|].
      intros [H' | H']; [congruence | tauto].
Qed.

Lemma unique_In (col : list string) (x : string) : In x (unique col) <-> In x col.
Proof. unfold unique. rewrite unique_from_In. simpl. tauto. Qed.

Lemma unique_from_NoDup (seen col : list string) : List.NoDup (unique_from seen col).
Proof.
  revert seen. induction col as [|y col IH]; intros seen; simpl; [constructor|].
  destruct (existsb (String.eqb y) seen); [apply IH|].
  constructor; [|apply IH]. rewrite unique_from_In. simpl. tauto.
Qed.

Lemma sent_to_In (a : string) (S : DataFrame) (c : string) :
  In c (sent_to a S) <-> exists t, In t S /\ from_address t = a /\ to_address t = c.
Proof.
  unfold sent_to. rewrite unique_In, select_rows_series_eq, in_map_iff.
  split.
  - intros (t & Hc & Hin). apply filter_In in Hin as [Hin E].
    apply String.eqb_eq in E. eauto.
  - intros (t & Hin & Hf & Hc). exists t. split; [assumption|].
    apply filter_In. split; [assumption | now apply String.eqb_eq].
Qed.

Lemma received_from_In (a : string) (S : DataFrame) (c : string) :
  In c (received_from a S) <-> exists t, In t S /\ to_address t = a /\ from_address t = c.
Proof.
  unfold received_from. rewrite unique_In, select_rows_series_eq, in_map_iff.
  split.
  - intros (t & Hc & Hin). apply filter_In in Hin as [Hin E].
    apply String.eqb_eq in E. eauto.
  - intros (t & Hin & Hf & Hc). exists t. split; [assumption|].
    apply filter_In. split; [assumption | now apply String.eqb_eq].
Qed.

(** Membership in the set whose size is [unique_counterparties]. *)
Lemma counterparty_set_spec (a : string) (S : DataFrame) (c : string) :
  c ∈ counterparty_set a S <->
  (exists t, In t S /\ from_address t = a /\ to_address t = c)
  \/ (exists t, In t S /\ to_address t = a /\ from_address t = c).
Proof.
  unfold counterparty_set.
  rewrite elem_of_union, !elem_of_list_to_set, !list_elem_of_In.
  now rewrite sent_to_In, received_from_In.
Qed.

Lemma counterparty_of_involved (a : string) (t : Transaction) (c : string) :
  (from_address t = a /\ to_address t = c) \/ (to_address t = a /\ from_address t = c) ->
  counterparty_of a t = c.
Proof.
  unfold counterparty_of. intros [[Hf Hc] | [Ht Hc]].
  - subst. now rewrite String.eqb_refl.
  - destruct (String.eqb (from_address t) a) eqn:E; [|assumption].
    apply String.eqb_eq in E. congruence.
Qed.

Lemma size_list_to_set_le (l : list string) :
  size (list_to_set l : gset string) <= length l.
Proof.
  induction l as [|x l IH].
  - rewrite list_to_set_nil, size_empty. simpl. lia.
  - rewrite list_to_set_cons, size_union_alt, size_singleton. simpl.
    assert (Hsub : (list_to_set l ∖ {[x]} : gset string) ⊆ list_to_set l)
      by apply subseteq_difference_l, reflexivity.
    apply subseteq_size in Hsub. lia.
Qed.

Lemma counterparty_set_size_le (a : string) (S : DataFrame) :
  size (counterparty_set a S) <= length S.
Proof.
  transitivity (size (list_to_set (map (counterparty_of a) S) : gset string)).
  - apply subseteq_size. intros c Hc. apply counterparty_set_spec in Hc.
    apply elem_of_list_to_set, list_elem_of_In, in_map_iff.
    destruct Hc as [(t & Hin & H) | (t & Hin & H)]; exists t;
      (split; [apply counterparty_of_involved; tauto | assumption]).
  - rewrite <- (length_map (counterparty_of a) S). apply size_list_to_set_le.
Qed.

(** *** The volume dictionary *)

Lemma dict_set_In_key (d : VolumeDict) (k : string) (v : Q) (x : string) :
  In x (map fst (dict_set d k v)) <-> x = k \/ In x (map fst d).
Proof.
  induction d as [|[k' v'] d IH]; simpl.
  - intuition congruence.
  - destruct (String.eqb k' k) eqn:E; simpl.
    + apply String.eqb_eq in E. subst. intuition congruence.
    + rewrite IH. tauto.
Qed.

Lemma dict_set_NoDup (d : VolumeDict) (k : string) (v : Q) :
  List.NoDup (map fst d) -> List.NoDup (map fst (dict_set d k v)).
Proof.
  induction d as [|[k' v'] d IH]; simpl; intros Hnd.
  - constructor; [intros [] | constructor].
  - inversion Hnd as [|? ? Hnotin Hnd']; subst.
    destruct (String.eqb k' k) eqn:E; simpl.
    + now constructor.
    + constructor; [|now apply IH]. rewrite dict_set_In_key.
      apply String.eqb_neq in E. intros [-> | H]; tauto.
Qed.

Lemma dict_get_set (d : VolumeDict) (k : string) (v : Q) (k' : string) (default : Q) :
  dict_get (dict_set d k v) k' default
  = if String.eqb k k' then v else dict_get d k' default.
Proof.
  induction d as [|[k0 v0] d IH]; simpl.
  - reflexivity.
  - destruct (String.eqb k0 k) eqn:E; simpl.
    + apply String.eqb_eq in E. subst. now destruct (String.eqb k k').
    + destruct (String.eqb k0 k') eqn:E'; [|assumption].
      apply String.eqb_eq in E'. subst. now rewrite String.eqb_sym, E.
Qed.

Lemma counterparty_volumes_fold (a : string) (txs : DataFrame) :
  counterparty_volumes a txs = fold_left (add_volume a) txs [].
Proof. reflexivity. Qed.

Lemma fold_volumes_In_key (a : string) (txs : DataFrame) (d : VolumeDict) (x : string) :
  In x (map fst (fold_left (add_volume a) txs d)) <->
  In x (map fst d) \/ exists t, In t txs /\ counterparty_of a t = x.
Proof.
  revert d. induction txs as [|t txs IH]; intros d; simpl.
  - split; [auto | intros [H | (t & [] & _)]; assumption].
  - rewrite IH. unfold add_volume at 1. rewrite dict_set_In_key. split.
    + intros [[-> | H] | (t' & Hin & E)]; eauto.
    + intros [H | (t' & [-> | Hin] & E)]; eauto.
Qed.

Lemma fold_volumes_NoDup (a : string) (txs : DataFrame) (d : VolumeDict) :
  List.NoDup (map fst d) -> List.NoDup (map fst (fold_left (add_volume a) txs d)).
Proof.
  revert d. induction txs as [|t txs IH]; intros d Hnd; simpl; [assumption|].
  apply IH. now apply dict_set_NoDup.
Qed.

Lemma counterparty_volumes_keys (a : string) (txs : DataFrame) (x : string) :
  In x (map fst (counterparty_volumes a txs)) <->
  exists t, In t txs /\ counterparty_of a t = x.
Proof.
  rewrite counterparty_volumes_fold, fold_volumes_In_key. simpl. tauto.
Qed.

Lemma counterparty_volumes_NoDup (a : string) (txs : DataFrame) :
  List.NoDup (map fst (counterparty_volumes a txs)).
Proof. apply fold_volumes_NoDup. constructor. Qed.

Lemma fold_Qplus_acc (l : list Q) (acc : Q) :
  (fold_left Qplus l acc == acc + fold_left Qplus l 0)%Q.
Proof.
  revert acc. induction l as [|x l IH]; intros acc; simpl.
  - ring.
  - rewrite (IH (acc + x)%Q), (IH (0 + x)%Q). ring.
Qed.

Lemma series_sum_cons (x : Q) (l : list Q) :
  (series_sum (x :: l) == x + series_sum l)%Q.
Proof. unfold series_sum. simpl. rewrite fold_Qplus_acc. ring. Qed.

Lemma fold_volumes_get (a : string) (txs : DataFrame) (d : VolumeDict) (k : string) :
  (dict_get (fold_left (add_volume a) txs d) k 0
   == dict_get d k 0 + attributed a txs k)%Q.
Proof.
  revert d. induction txs as [|t txs IH]; intros d; simpl.
  - unfold attributed, series_sum. simpl. ring.
  - rewrite IH. unfold add_volume at 1. rewrite dict_get_set.
    unfold attributed. simpl.
    destruct (String.eqb (counterparty_of a t) k) eqn:E; simpl.
    + apply String.eqb_eq in E. rewrite E, series_sum_cons. ring.
    + reflexivity.
Qed.

Lemma counterparty_volumes_get (a : string) (txs : DataFrame) (k : string) :
  (dict_get (counterparty_volumes a txs) k 0 == attributed a txs k)%Q.
Proof.
  rewrite counterparty_volumes_fold, fold_volumes_get. simpl. ring.
Qed.

Lemma dict_get_In (d : VolumeDict) (k : string) (default : Q) :
  In k (map fst d) -> In (k, dict_get d k default) d.
Proof.
  induction d as [|[k' v] d IH]; simpl; [tauto|].
  destruct (String.eqb k' k) eqn:E.
  - apply String.eqb_eq in E. subst. auto.
  - intros [H | H]; [apply String.eqb_neq in E; congruence | auto].
Qed.

(** *** Ranking *)

Lemma insert_desc_perm (x : CounterpartyVolume) (l : list CounterpartyVolume) :
  Permutation (insert_desc x l) (x :: l).
Proof.
  induction l as [|y l IH]; simpl; [reflexivity|].
  destruct (Qlt_bool (cp_volume x) (cp_volume y)); [|reflexivity].
  rewrite IH. apply perm_swap.
Qed.

Lemma sorted_desc_perm (l : list CounterpartyVolume) : Permutation (sorted_desc l) l.
Proof.
  induction l as [|x l IH]; simpl; [reflexivity|].
  rewrite insert_desc_perm. now constructor.
Qed.

Lemma insert_desc_sorted (x : CounterpartyVolume) (l : list CounterpartyVolume) :
  StronglySorted volume_ge l -> StronglySorted volume_ge (insert_desc x l).
Proof.
  induction l as [|y l IH]; simpl; intros Hs.
  - repeat constructor.
  - inversion Hs as [|? ? Hs' Hall]; subst.
    destruct (Qlt_bool (cp_volume x) (cp_volume y)) eqn:E.
    + constructor; [now apply IH|].
      apply (Permutation_Forall (Permutation_sym (insert_desc_perm x l))).
      constructor; [|assumption].
      apply Qlt_bool_iff in E. unfold volume_ge. now apply Qlt_le_weak.
    + assert (Hxy : volume_ge x y).
      { unfold volume_ge. apply Qnot_lt_le. rewrite <- Qlt_bool_iff. congruence. }
      constructor; [assumption|]. constructor; [assumption|].
      revert Hall. apply List.Forall_impl.
      intros z Hz. unfold volume_ge in *. now apply Qle_trans with (cp_volume y).
Qed.

Lemma sorted_desc_sorted (l : list CounterpartyVolume) :
  StronglySorted volume_ge (sorted_desc l).
Proof.
  induction l as [|x l IH]; simpl; [constructor | now apply insert_desc_sorted].
Qed.

Lemma firstn_In {A : Type} (n : nat) (l : list A) (y : A) :
  In y (firstn n l) -> In y l.
Proof.
  revert n. induction l as [|x l IH]; intros [|n]; simpl; try tauto.
  intros [H | H]; [auto | right; eauto].
Qed.

Lemma StronglySorted_firstn {A : Type} (R : A -> A -> Prop) (n : nat) (l : list A) :
  StronglySorted R l -> StronglySorted R (firstn n l).
Proof.
  revert n. induction l as [|x l IH]; intros [|n] Hs; simpl; try constructor.
  - inversion Hs; subst. now apply IH.
  - inversion Hs as [|? ? _ Hall]; subst.
    apply List.Forall_forall. intros y Hy.
    apply (proj1 (List.Forall_forall _ _) Hall).
    revert Hy. apply firstn_In.
Qed.

Lemma py_slice_to_nonneg {A : Type} (l : list A) (n : Z) :
  (0 <= n)%Z -> py_slice_to l n = firstn (Z.to_nat n) l.
Proof. intros H. unfold py_slice_to. apply Z.leb_le in H. now rewrite H. Qed.

Lemma ranking_length (a : string) (S : DataFrame) :
  length (ranking a S) = length (counterparty_volumes a S).
Proof.
  unfold ranking. rewrite (Permutation_length (sorted_desc_perm _)).
  apply length_map.
Qed.

Lemma top_sorted (a : string) (S : DataFrame) (top_n : Z) :
  StronglySorted volume_ge (get_top_counterparties a S top_n).
Proof.
  unfold get_top_counterparties, py_slice_to.
  destruct (0 <=? top_n)%Z; apply StronglySorted_firstn, sorted_desc_sorted.
Qed.

Lemma top_length (a : string) (S : DataFrame) (top_n : Z) :
  (0 <= top_n)%Z ->
  length (get_top_counterparties a S top_n)
  = Nat.min (Z.to_nat top_n) (length (counterparty_volumes a S)).
Proof.
  intros H. unfold get_top_counterparties. rewrite py_slice_to_nonneg by assumption.
  rewrite length_firstn. fold (ranking a S). now rewrite ranking_length.
Qed.

(** On a wallet subset the keys of the volume dictionary are the members of
    the counterparty set. *)
Lemma counterparty_keys_set (a : string) (T : DataFrame) :
  counterparty_set a (filter_by_address T a)
  = list_to_set (map fst (counterparty_volumes a (filter_by_address T a))).
Proof.
  apply set_eq. intros c.
  rewrite counterparty_set_spec, elem_of_list_to_set, list_elem_of_In,
    counterparty_volumes_keys.
  split.
  - intros [(t & Hin & H) | (t & Hin & H)]; exists t;
      (split; [assumption | apply counterparty_of_involved; tauto]).
  - intros (t & Hin & Hc).
    pose proof Hin as Hin'. rewrite filter_by_address_filter in Hin'.
    apply filter_In in Hin' as [_ Hinv]. apply involves_true in Hinv.
    unfold counterparty_of in Hc.
    destruct (String.eqb (from_address t) a) eqn:E.
    + apply String.eqb_eq in E. left. eauto.
    + apply String.eqb_neq in E. right. exists t. intuition congruence.
Qed.

Lemma counterparty_set_size (a : string) (T : DataFrame) :
  size (counterparty_set a (filter_by_address T a))
  = length (counterparty_volumes a (filter_by_address T a)).
Proof.
  rewrite counterparty_keys_set, size_list_to_set, length_map; [reflexivity|].
  apply NoDup_ListNoDup, counterparty_volumes_NoDup.
Qed.

(** C4. On the wallet subset [S] of an address: [unique_counterparties] is
    the size of the set of the recipients of its outgoing rows together with
    the senders of its incoming rows, and is at most the number of rows;
    [top_counterparties] is ordered by non-increasing volume and has at most
    min(top_n, unique_counterparties) entries, for the default [top_n] of
    five and for every other non-negative one. *)
Theorem counterparty_aggregation (a : string) (T : DataFrame) :
  let S := filter_by_address T a in
  let r := analyze_counterparties a S in
  (exists X : gset string,
     (forall c, c ∈ X <->
        (exists t, In t S /\ from_address t = a /\ to_address t = c)
        \/ (exists t, In t S /\ to_address t = a /\ from_address t = c))
     /\ unique_counterparties r = size X)
  /\ unique_counterparties r <= length S
  /\ StronglySorted volume_ge (top_counterparties r)
  /\ length (top_counterparties r) <= Nat.min 5 (unique_counterparties r)
  /\ (forall top_n : Z, (0 <= top_n)%Z ->
        StronglySorted volume_ge (get_top_counterparties a S top_n)
        /\ length (get_top_counterparties a S top_n)
           <= Nat.min (Z.to_nat top_n) (unique_counterparties r)).
Proof.
  cbv zeta. unfold analyze_counterparties.
  cbn [unique_counterparties top_counterparties]. repeat split.
  - exists (counterparty_set a (filter_by_address T a)).
    split; [apply counterparty_set_spec | reflexivity].
  - apply counterparty_set_size_le.
  - apply top_sorted.
  - rewrite (top_length a _ 5) by lia. rewrite counterparty_set_size.
    change (Z.to_nat 5) with 5. lia.
  - apply top_sorted.
  - rewrite top_length by assumption. rewrite counterparty_set_size. lia.
Qed.

Lemma counterparty_aggregation_witness :
  length (get_top_counterparties "A" (filter_by_address example_transactions "A") 1)
  <= Nat.min (Z.to_nat 1)
       (unique_counterparties
          (analyze_counterparties "A" (filter_by_address example_transactions "A"))).
Proof.
  destruct (proj2 (proj2 (proj2 (proj2
              (counterparty_aggregation "A" example_transactions)))) 1%Z) as [_ H];
    [lia | exact H].
Defined.

(** Equal volumes keep the order in which the counterparties were first seen. *)
Example top_counterparties_ties :
  map cp_address
    (get_top_counterparties "A"
       [mk_tx "2024-01-01T10:00:00" "A" "B" 1;
        mk_tx "2024-01-01T11:00:00" "C" "A" 3;
        mk_tx "2024-01-01T12:00:00" "A" "D" 1;
        mk_tx "2024-01-01T13:00:00" "A" "B" 2] 5)
  = ["B"; "C"; "D"].
Proof. reflexivity. Qed.

(** *** Self-transfers *)

Lemma series_sum_member (l : list Q) (x : Q) :
  (forall y, In y l -> (0 <= y)%Q) -> In x l -> (x <= series_sum l)%Q.
Proof.
  induction l as [|y l IH]; intros Hpos Hin; [destruct Hin|].
  rewrite series_sum_cons.
  assert (Hrest : (0 <= series_sum l)%Q).
  { clear IH Hin. induction l as [|z l IHl].
    - unfold series_sum. simpl. apply Qle_refl.
    - rewrite series_sum_cons.
      assert ((0 <= z)%Q) by (apply Hpos; simpl; auto).
      assert ((0 <= series_sum l)%Q)
        by (apply IHl; intros w [Hw | Hw]; apply Hpos; simpl; auto).
      lra. }
  destruct Hin as [-> | Hin].
  - lra.
  - assert ((0 <= y)%Q) by (apply Hpos; simpl; auto).
    assert ((x <= series_sum l)%Q) by (apply IH; [intros w Hw; apply Hpos; simpl; auto | assumption]).
    lra.
Qed.

Lemma top_all_when_few (a : string) (S : DataFrame) (cp : CounterpartyVolume) :
  length (counterparty_volumes a S) <= 5 ->
  In (cp_address cp, cp_volume cp) (counterparty_volumes a S) ->
  In cp (get_top_counterparties a S 5).
Proof.
  intros Hlen Hin. unfold get_top_counterparties.
  rewrite py_slice_to_nonneg by lia. fold (ranking a S).
  rewrite firstn_all2 by (rewrite ranking_length; exact Hlen).
  unfold ranking. apply (Permutation_in _ (Permutation_sym (sorted_desc_perm _))).
  apply in_map_iff. exists (cp_address cp, cp_volume cp). split; [now destruct cp | assumption].
Qed.

(** C9. A row whose sender and recipient are both the analysed wallet makes
    the wallet its own counterparty: the wallet is a member of the set that
    [unique_counterparties] counts, the row is one of those whose amounts are
    summed under the wallet's own key of the volume dictionary, and the
    wallet is listed in [top_counterparties] whenever the list is not cut. *)
Theorem self_transfer_counterparty (a : string) (S : DataFrame) (t : Transaction)
    (Hin : In t S) (Hfrom : from_address t = a) (Hto : to_address t = a) :
  counterparty_of a t = a
  /\ a ∈ counterparty_set a S
  /\ 1 <= unique_counterparties (analyze_counterparties a S)
  /\ In (a, dict_get (counterparty_volumes a S) a 0) (counterparty_volumes a S)
  /\ (dict_get (counterparty_volumes a S) a 0 == attributed a S a)%Q
  /\ In t (List.filter (fun t' => String.eqb (counterparty_of a t') a) S)
  /\ ((forall t', In t' S -> (0 <= amount t')%Q) ->
      (amount t <= dict_get (counterparty_volumes a S) a 0)%Q)
  /\ (length (counterparty_volumes a S) <= 5 ->
      exists cp, In cp (top_counterparties (analyze_counterparties a S))
                 /\ cp_address cp = a
                 /\ (cp_volume cp == attributed a S a)%Q).
Proof.
  assert (Hcp : counterparty_of a t = a)
    by (apply counterparty_of_involved; tauto).
  assert (Hset : a ∈ counterparty_set a S)
    by (apply counterparty_set_spec; left; eauto).
  assert (Hkey : In a (map fst (counterparty_volumes a S)))
    by (apply counterparty_volumes_keys; eauto).
  assert (Hrow : In t (List.filter (fun t' => String.eqb (counterparty_of a t') a) S))
    by (apply filter_In; split; [assumption | now apply String.eqb_eq]).
  split; [assumption|]. split; [assumption|]. split.
  { unfold analyze_counterparties. cbn [unique_counterparties].
    destruct (size (counterparty_set a S)) eqn:E; [|lia].
    apply size_empty_inv in E. apply leibniz_equiv in E. rewrite E in Hset.
    now apply not_elem_of_empty in Hset. }
  split; [now apply dict_get_In|].
  split; [apply counterparty_volumes_get|].
  split; [assumption|]. split.
  - intros Hpos. rewrite counterparty_volumes_get. unfold attributed.
    apply series_sum_member.
    + intros y Hy. apply in_map_iff in Hy as (t' & <- & Ht').
      apply filter_In in Ht' as [Ht' _]. now apply Hpos.
    + apply in_map_iff. eauto.
  - intros Hlen.
    exists {| cp_address := a; cp_volume := dict_get (counterparty_volumes a S) a 0 |}.
    split; [|split; [reflexivity | apply counterparty_volumes_get]].
    unfold analyze_counterparties. cbn [top_counterparties].
    apply top_all_when_few; [assumption|]. cbn [cp_address cp_volume].
    now apply dict_get_In.
Qed.

Lemma self_transfer_counterparty_witness :
  counterparty_of "A" (mk_tx "2024-01-01T10:00:00" "A" "A" 2.5) = "A"
  /\ 1 <= unique_counterparties
            (analyze_counterparties "A" [mk_tx "2024-01-01T10:00:00" "A" "A" 2.5]).
Proof.
  destruct (self_transfer_counterparty "A"
              [mk_tx "2024-01-01T10:00:00" "A" "A" 2.5]
              (mk_tx "2024-01-01T10:00:00" "A" "A" 2.5)
              (or_introl eq_refl) eq_refl eq_refl)
    as (H1 & _ & H3 & _).
  exact (conj H1 H3).
Defined.

(** The wallet of a single self-transfer has itself as its one counterparty. *)
Example self_transfer_only :
  analyze_counterparties "A" [mk_tx "2024-01-01T10:00:00" "A" "A" 2.5]
  = {| unique_counterparties := 1;
       top_counterparties := [{| cp_address := "A"; cp_volume := 0 + 2.5 |}] |}.
Proof. vm_compute. reflexivity. Qed.

(** ** Velocity *)

Lemma py_max_Qmax (a b : Q) : (py_max a b == Qmax a b)%Q.
Proof.
  unfold py_max. destruct (Qlt_bool a b) eqn:E.
  - apply Qlt_bool_iff in E. symmetry. apply Q.max_r. now apply Qlt_le_weak.
  - symmetry. apply Q.max_l. apply Qnot_lt_le. rewrite <- Qlt_bool_iff. congruence.
Qed.

Lemma py_max_ge_1 (a : Q) : (1 <= py_max a 1)%Q.
Proof. rewrite py_max_Qmax. apply Q.le_max_r. Qed.

Lemma span_hours_nonneg (tr : Z) : (0 <= tr)%Z -> (0 <= span_hours tr)%Q.
Proof.
  intros H. rewrite Zle_Qle in H. unfold span_hours, total_seconds.
  change (inject_Z 0) with 0%Q in H.
  do 2 (apply Qle_shift_div_l; [reflexivity|]). lra.
Qed.

Lemma span_hours_lt_1 (tr : Z) : (tr < 3600000000000)%Z -> (span_hours tr < 1)%Q.
Proof.
  intros H. rewrite Zlt_Qlt in H. unfold span_hours, total_seconds.
  change (inject_Z 3600000000000) with 3600000000000%Q in H.
  do 2 (apply Qlt_shift_div_r; [reflexivity|]). lra.
Qed.

Lemma Qdiv_le_antitone (n a b : Q) :
  (0 <= n)%Q -> (0 < b)%Q -> (b <= a)%Q -> (n / a <= n / b)%Q.
Proof.
  intros Hn Hb Hab. apply Qle_shift_div_l; [assumption|].
  assert (E : (n / a * b == n * b / a)%Q) by (field; lra).
  rewrite E. apply Qle_shift_div_r; [lra|].
  rewrite (Qmult_comm n b), (Qmult_comm n a). now apply Qmult_le_compat_r.
Qed.

Lemma Qdiv_le_self (n a : Q) : (0 <= n)%Q -> (1 <= a)%Q -> (n / a <= n)%Q.
Proof.
  intros Hn Ha. apply Qle_shift_div_r; [lra|].
  rewrite <- (Qmult_1_l n) at 1. rewrite (Qmult_comm n a).
  now apply Qmult_le_compat_r.
Qed.

(** The extreme instants of a non-empty column. *)
Lemma fold_min_le_max (l : list Z) (a b : Z) :
  (a <= b)%Z -> (fold_left Z.min l a <= fold_left Z.max l b)%Z.
Proof.
  revert a b. induction l as [|x l IH]; intros a b H; simpl; [assumption|].
  apply IH. lia.
Qed.

Lemma fold_max_bounds (l : list Z) (a lo hi : Z) :
  (lo <= a <= hi)%Z -> (forall x, In x l -> (lo <= x <= hi)%Z) ->
  (lo <= fold_left Z.max l a <= hi)%Z.
Proof.
  revert a. induction l as [|x l IH]; intros a Ha Hl; simpl; [assumption|].
  apply IH; [|intros y Hy; apply Hl; simpl; auto].
  assert ((lo <= x <= hi)%Z) by (apply Hl; simpl; auto). lia.
Qed.

Lemma fold_min_bounds (l : list Z) (a lo hi : Z) :
  (lo <= a <= hi)%Z -> (forall x, In x l -> (lo <= x <= hi)%Z) ->
  (lo <= fold_left Z.min l a <= hi)%Z.
Proof.
  revert a. induction l as [|x l IH]; intros a Ha Hl; simpl; [assumption|].
  apply IH; [|intros y Hy; apply Hl; simpl; auto].
  assert ((lo <= x <= hi)%Z) by (apply Hl; simpl; auto). lia.
Qed.

Lemma time_range_nonneg (stamps : list Z) : (0 <= time_range_of stamps)%Z.
Proof.
  destruct stamps as [|ns l]; simpl; [lia|].
  pose proof (fold_min_le_max l ns ns). lia.
Qed.

Lemma time_range_within (stamps : list Z) (lo hi : Z) :
  (forall x, In x stamps -> (lo <= x <= hi)%Z) ->
  stamps <> [] -> (time_range_of stamps <= hi - lo)%Z.
Proof.
  destruct stamps as [|ns l]; [congruence|]. intros H _. simpl.
  assert (Hns : (lo <= ns <= hi)%Z) by (apply H; simpl; auto).
  assert (Hl : forall x, In x l -> (lo <= x <= hi)%Z)
    by (intros x Hx; apply H; simpl; auto).
  pose proof (fold_max_bounds l ns lo hi Hns Hl).
  pose proof (fold_min_bounds l ns lo hi Hns Hl). lia.
Qed.

Lemma stamps_of_TsStamp (l : list Z) : stamps_of (map TsStamp l) = Some l.
Proof. induction l as [|x l IH]; simpl; [reflexivity | now rewrite IH]. Qed.

Lemma assign_timestamp_column (df : DataFrame) (col : list TsCell) :
  length col = length df -> map timestamp (assign_timestamp df col) = col.
Proof.
  revert col. induction df as [|t df IH]; intros [|c col] H; simpl in *;
    try reflexivity; try discriminate.
  f_equal. apply IH. lia.
Qed.

Lemma assign_timestamp_length (df : DataFrame) (col : list TsCell) :
  length col = length df -> length (assign_timestamp df col) = length df.
Proof.
  revert col. induction df as [|t df IH]; intros [|c col] H; simpl in *;
    try reflexivity; try discriminate.
  f_equal. apply IH. lia.
Qed.

Section AnalyzerProperties.

Variable to_datetime : string -> option Z.

Lemma column_to_datetime_length (col : list TsCell) (l : list Z) :
  column_to_datetime to_datetime col = Some l -> length l = length col.
Proof.
  revert l. induction col as [|c col IH]; intros l; simpl.
  - intros [= <-]. reflexivity.
  - destruct (cell_to_datetime to_datetime c); [|discriminate].
    destruct (column_to_datetime to_datetime col); [|discriminate].
    intros [= <-]. simpl. f_equal. now apply IH.
Qed.

Lemma calculate_velocity_empty (st : Store) (r : nat) :
  st !! r = Some [] ->
  calculate_velocity to_datetime r st
  = (Ok {| hourly_avg := 0; daily_avg := 0 |}, st).
Proof.
  intros H. unfold calculate_velocity, bind, frame. rewrite H. reflexivity.
Qed.

Lemma calculate_velocity_run (st : Store) (r : nat) (df : DataFrame) (stamps : list Z) :
  st !! r = Some df -> df <> [] ->
  column_to_datetime to_datetime (map timestamp df) = Some stamps ->
  calculate_velocity to_datetime r st
  = (Ok (velocity_metrics (length df) (time_range_of stamps)),
     <[r := with_parsed_timestamps df stamps]> st).
Proof.
  intros H Hne Hparse.
  pose proof (column_to_datetime_length _ _ Hparse) as Hlen.
  rewrite length_map in Hlen.
  assert (Hr : r < length st) by (eapply lookup_lt_Some; eauto).
  assert (Hcol : length (map TsStamp stamps) = length df)
    by now rewrite length_map.
  unfold calculate_velocity, bind, frame. rewrite H.
  destruct df as [|t df]; [congruence|]. cbn [length Nat.eqb].
  unfold pd_to_datetime. rewrite Hparse. unfold ret, setitem_timestamp.
  rewrite H. rewrite list_lookup_insert_eq by assumption.
  rewrite assign_timestamp_column by assumption.
  unfold series_max, series_min. rewrite stamps_of_TsStamp.
  destruct stamps as [|ns l]; [discriminate|]. unfold ret.
  rewrite list_lookup_insert_eq by assumption.
  rewrite assign_timestamp_length by assumption.
  reflexivity.
Qed.

Lemma calculate_velocity_raise (st : Store) (r : nat) (df : DataFrame) :
  st !! r = Some df -> df <> [] ->
  column_to_datetime to_datetime (map timestamp df) = None ->
  calculate_velocity to_datetime r st = (Raise ParseError, st).
Proof.
  intros H Hne Hparse. unfold calculate_velocity, bind, frame. rewrite H.
  destruct df as [|t df]; [congruence|]. cbn [length Nat.eqb].
  unfold pd_to_datetime. now rewrite Hparse.
Qed.

Lemma calculate_velocity_dangling (st : Store) (r : nat) :
  st !! r = None -> calculate_velocity to_datetime r st = (Raise KeyError, st).
Proof.
  intros H. unfold calculate_velocity, bind, frame. now rewrite H.
Qed.

(** C3. On the empty subset the velocity is zero on both counts. On a
    non-empty subset whose timestamps parse, with [h] the hours between the
    latest and the earliest instant, the hourly average is the count
    divided by max(h, 1) and the daily average the count divided by
    max(h/24, 1). Ten rows within one minute give an hourly average of ten
    and a daily average of at most ten. *)
Theorem velocity_formula (st : Store) (r : nat) (df : DataFrame)
    (Hdf : st !! r = Some df) :
  (df = [] ->
   fst (calculate_velocity to_datetime r st)
   = Ok {| hourly_avg := 0; daily_avg := 0 |})
  /\ (forall stamps,
        df <> [] ->
        column_to_datetime to_datetime (map timestamp df) = Some stamps ->
        exists v,
          fst (calculate_velocity to_datetime r st) = Ok v
          /\ let count := inject_Z (Z.of_nat (length df)) in
             let h := span_hours (time_range_of stamps) in
             (hourly_avg v == count / Qmax h 1)%Q
             /\ (daily_avg v == count / Qmax (h / 24) 1)%Q)
  /\ (forall stamps minute,
        length df = 10 ->
        column_to_datetime to_datetime (map timestamp df) = Some stamps ->
        (forall s, In s stamps -> (s / 60000000000 = minute)%Z) ->
        exists v,
          fst (calculate_velocity to_datetime r st) = Ok v
          /\ (hourly_avg v == 10)%Q /\ (daily_avg v <= 10)%Q).
Proof.
  split; [|split].
  - intros ->. now rewrite calculate_velocity_empty.
  - intros stamps Hne Hparse.
    rewrite (calculate_velocity_run st r df stamps) by assumption.
    eexists. split; [reflexivity|]. cbv zeta. unfold velocity_metrics.
    cbn [hourly_avg daily_avg]. fold (span_hours (time_range_of stamps)).
    now rewrite !py_max_Qmax.
  - intros stamps minute Hlen Hparse Hmin.
    assert (Hne : df <> []) by (intros ->; discriminate).
    rewrite (calculate_velocity_run st r df stamps) by assumption.
    eexists. split; [reflexivity|]. unfold velocity_metrics.
    cbn [hourly_avg daily_avg]. fold (span_hours (time_range_of stamps)).
    rewrite Hlen.
    assert (Hs : stamps <> []).
    { pose proof (column_to_datetime_length _ _ Hparse) as L.
      rewrite length_map, Hlen in L. intros ->. discriminate. }
    assert (Hrange : (time_range_of stamps < 3600000000000)%Z).
    { pose proof (time_range_within stamps (60000000000 * minute)
                    (60000000000 * minute + 59999999999)) as Hw.
      assert (forall x, In x stamps ->
                (60000000000 * minute <= x <= 60000000000 * minute + 59999999999)%Z).
      { intros x Hx. specialize (Hmin x Hx).
        pose proof (Z.div_mod x 60000000000 ltac:(lia)).
        pose proof (Z.mod_pos_bound x 60000000000 ltac:(lia)). lia. }
      specialize (Hw H Hs). lia. }
    pose proof (span_hours_lt_1 _ Hrange) as Hlt.
    pose proof (span_hours_nonneg _ (time_range_nonneg stamps)) as Hge.
    set (h := span_hours (time_range_of stamps)) in *.
    assert (E1 : (py_max h 1 == 1)%Q).
    { rewrite py_max_Qmax. apply Q.max_r. lra. }
    assert (E2 : (py_max (h / 24) 1 == 1)%Q).
    { rewrite py_max_Qmax. apply Q.max_r.
      apply Qle_shift_div_r; [reflexivity | lra]. }
    rewrite E1, E2. change (inject_Z (Z.of_nat 10)) with 10%Q.
    split; [field | apply Qle_lteq; right; field].
Qed.

End AnalyzerProperties.

Lemma velocity_formula_witness :
  exists v,
    fst (calculate_velocity iso8601 0 [burst]) = Ok v
    /\ (hourly_avg v == 10)%Q /\ (daily_avg v <= 10)%Q.
Proof.
  eapply (proj2 (proj2 (velocity_formula iso8601 [burst] 0 burst eq_refl))).
  - reflexivity.
  - vm_compute. reflexivity.
  - intros s Hs. simpl in Hs.
    repeat (destruct Hs as [<- | Hs]; [vm_compute; reflexivity|]).
    destruct Hs.
Defined.

(** C10. On a non-empty subset whose timestamps parse, the daily average is
    at least the hourly average, and the hourly average is at most the
    number of rows. *)
Theorem velocity_ordering (to_datetime : string -> option Z)
    (st : list (list Transaction)) (r : nat) (df : list Transaction) (stamps : list Z)
    (Hdf : st !! r = Some df) (Hne : df <> [])
    (Hparse : column_to_datetime to_datetime (map timestamp df) = Some stamps) :
  exists v,
    fst (calculate_velocity to_datetime r st) = Ok v
    /\ (hourly_avg v <= daily_avg v)%Q
    /\ (hourly_avg v <= inject_Z (Z.of_nat (length df)))%Q.
Proof.
  rewrite (calculate_velocity_run to_datetime st r df stamps) by assumption.
  eexists. split; [reflexivity|]. unfold velocity_metrics.
  cbn [hourly_avg daily_avg]. fold (span_hours (time_range_of stamps)).
  pose proof (span_hours_nonneg _ (time_range_nonneg stamps)) as Hge.
  set (h := span_hours (time_range_of stamps)) in *.
  assert (Hn : (0 <= inject_Z (Z.of_nat (length df)))%Q).
  { change 0%Q with (inject_Z 0). rewrite <- Zle_Qle. lia. }
  pose proof (py_max_ge_1 h) as H1. pose proof (py_max_ge_1 (h / 24)) as H24.
  split.
  - apply Qdiv_le_antitone; [assumption | lra |].
    rewrite !py_max_Qmax. apply Q.max_le_compat_r.
    apply Qle_shift_div_r; [reflexivity | lra].
  - now apply Qdiv_le_self.
Qed.

Lemma velocity_ordering_witness :
  exists v,
    fst (calculate_velocity iso8601 0 [example_transactions]) = Ok v
    /\ (hourly_avg v <= daily_avg v)%Q
    /\ (hourly_avg v <= inject_Z (Z.of_nat (length example_transactions)))%Q.
Proof.
  eapply (velocity_ordering iso8601 [example_transactions] 0 example_transactions).
  - reflexivity.
  - discriminate.
  - vm_compute. reflexivity.
Defined.

(** Over a span of two days the two averages differ. *)
Example velocity_two_days :
  match fst (calculate_velocity iso8601 0
               [[ mk_tx "2024-01-01T10:00:00" "A" "B" 1.5;
                  mk_tx "2024-01-03T10:00:00" "B" "A" 2.5 ]]) with
  | Ok v => (hourly_avg v == 1 / 24)%Q /\ (daily_avg v == 1)%Q
  | Raise _ => False
  end.
Proof. vm_compute. split; reflexivity. Qed.

(** ** The orchestrator *)

Section WalletProperties.

Variable to_datetime : string -> option Z.

(** One run of [analyze_wallet]: the subset becomes a new frame at the end of
    the store, the velocity is computed on it, and the counterparties are
    read from it afterwards. *)
Lemma analyze_wallet_run (self : CryptoTransactionAnalyzer) (a : string)
    (st : Store) (r : nat) (T : DataFrame) :
  st !! r = Some T ->
  analyze_wallet to_datetime self a r st
  = let w := filter_by_address T a in
    match calculate_velocity to_datetime (length st) (st ++ [w]) with
    | (Ok vel, st') =>
        match st' !! length st with
        | Some w' =>
            (Ok {| address := a;
                   total_transactions := length w;
                   total_volume := series_sum (map amount w);
                   found_risk_indicators := check_risk_indicators self w;
                   transaction_velocity := vel;
                   counterparties := analyze_counterparties a w' |}, st')
        | None => (Raise KeyError, st')
        end
    | (Raise e, st') => (Raise e, st')
    end.
Proof.
  intros H. unfold analyze_wallet, bind at 1 2 3, frame at 1 2, new_frame.
  rewrite H. rewrite list_lookup_middle by reflexivity. cbv zeta.
  unfold bind at 1.
  destruct (calculate_velocity to_datetime (length st) (st ++ [filter_by_address T a]))
    as [[vel | e] st']; [|reflexivity].
  unfold bind, frame. destruct (st' !! length st); reflexivity.
Qed.

Lemma filter_absent (T : DataFrame) (a : string) :
  (forall t, In t T -> from_address t <> a /\ to_address t <> a) ->
  filter_by_address T a = [].
Proof.
  intros H. rewrite filter_by_address_filter.
  induction T as [|t T IH]; simpl; [reflexivity|].
  destruct (involves a t) eqn:E.
  - apply involves_true in E. destruct (H t) as [Hf Ht]; simpl; tauto.
  - apply IH. intros t' Ht'. apply H. simpl. auto.
Qed.

Lemma check_risk_indicators_nil (self : CryptoTransactionAnalyzer) :
  check_risk_indicators self [] = [].
Proof.
  rewrite check_risk_indicators_rules. simpl. rewrite andb_false_r.
  rewrite app_nil_r.
  induction (mixing_service (risk_indicators self)) as [|m ms IH]; simpl; auto.
Qed.

(** On the rows of a frame with its columns and a float64 amount column: for
    an address that is neither sender nor recipient of any row, the analysis
    succeeds with count and volume zero, no finding, velocity zero on both
    counts, no counterparty and an empty ranking. *)
Theorem analyze_absent_address (self : CryptoTransactionAnalyzer) (a : string)
    (st : Store) (r : nat) (T : DataFrame)
    (HT : st !! r = Some T)
    (Ha : forall t, In t T -> from_address t <> a /\ to_address t <> a) :
  fst (analyze_wallet to_datetime self a r st)
  = Ok {| address := a;
          total_transactions := 0;
          total_volume := 0;
          found_risk_indicators := [];
          transaction_velocity := {| hourly_avg := 0; daily_avg := 0 |};
          counterparties :=
            {| unique_counterparties := 0; top_counterparties := [] |} |}.
Proof.
  rewrite (analyze_wallet_run self a st r T HT). cbv zeta.
  rewrite (filter_absent T a Ha).
  rewrite calculate_velocity_empty by (now apply list_lookup_middle).
  rewrite list_lookup_middle by reflexivity.
  rewrite check_risk_indicators_nil. reflexivity.
Qed.

End WalletProperties.

Lemma analyze_absent_address_witness :
  fst (analyze_wallet iso8601 init "C" 0 [example_transactions])
  = Ok {| address := "C";
          total_transactions := 0;
          total_volume := 0;
          found_risk_indicators := [];
          transaction_velocity := {| hourly_avg := 0; daily_avg := 0 |};
          counterparties :=
            {| unique_counterparties := 0; top_counterparties := [] |} |}.
Proof.
  apply (analyze_absent_address iso8601 init "C" [example_transactions] 0
           example_transactions eq_refl).
  intros t [<- | [<- | []]]; split; discriminate.
Defined.

(** C2. The example scenario: for wallet A over the two sample rows, with
    round-amount detection on, the analysis counts two transactions of total
    volume 3.5, one counterparty, B, with volume 3.5, and the round-number
    finding as the only finding. *)
Theorem example_scenario :
  round_amounts (suspicious_patterns (risk_indicators init)) = true
  /\ exists r,
       fst (analyze_wallet iso8601 init "A" 0 [example_transactions]) = Ok r
       /\ total_transactions r = 2
       /\ (total_volume r == 3.5)%Q
       /\ unique_counterparties (counterparties r) = 1
       /\ map cp_address (top_counterparties (counterparties r)) = ["B"]
       /\ Forall2 Qeq (map cp_volume (top_counterparties (counterparties r))) [3.5%Q]
       /\ found_risk_indicators r = ["Multiple round-number transactions"].
Proof.
  split; [reflexivity|].
  eexists. split; [vm_compute; reflexivity|].
  cbn [total_transactions total_volume counterparties unique_counterparties
       top_counterparties found_risk_indicators map cp_address cp_volume].
  repeat split; try reflexivity.
  repeat constructor.
Qed.

(** ** What the analysis writes *)

Lemma assign_timestamp_keeps {B : Type} (col : Transaction -> B)
    (df : DataFrame) (cells : list TsCell) :
  (forall t c, col (set_timestamp t c) = col t) ->
  length cells = length df ->
  map col (assign_timestamp df cells) = map col df.
Proof.
  intros Hcol. revert cells.
  induction df as [|t df IH]; intros [|c cells] H; simpl in *;
    try reflexivity; try discriminate.
  rewrite Hcol. f_equal. apply IH. lia.
Qed.

Section FrameProperties.

Variable to_datetime : string -> option Z.

(** The store after [calculate_velocity]: as before, or with the timestamp
    column of the given frame replaced by the parsed instants. *)
Lemma calculate_velocity_store (st : Store) (r : nat) :
  snd (calculate_velocity to_datetime r st) = st
  \/ exists df stamps,
       st !! r = Some df
       /\ column_to_datetime to_datetime (map timestamp df) = Some stamps
       /\ snd (calculate_velocity to_datetime r st)
          = <[r := with_parsed_timestamps df stamps]> st.
Proof.
  destruct (st !! r) as [df|] eqn:H.
  - destruct df as [|t df].
    + left. now rewrite calculate_velocity_empty.
    + destruct (column_to_datetime to_datetime (map timestamp (t :: df)))
        as [stamps|] eqn:Hparse.
      * right. exists (t :: df), stamps. split; [reflexivity|]. split; [assumption|].
        now rewrite (calculate_velocity_run to_datetime st r (t :: df) stamps).
      * left. now rewrite (calculate_velocity_raise to_datetime st r (t :: df)).
  - left. now rewrite calculate_velocity_dangling.
Qed.

Lemma analyze_wallet_store (self : CryptoTransactionAnalyzer) (a : string)
    (st : Store) (r : nat) :
  take (length st) (snd (analyze_wallet to_datetime self a r st)) = st.
Proof.
  destruct (st !! r) as [T|] eqn:H.
  - rewrite (analyze_wallet_run to_datetime self a st r T H). cbv zeta.
    set (w := filter_by_address T a).
    assert (Hv : take (length st)
                   (snd (calculate_velocity to_datetime (length st) (st ++ [w]))) = st).
    { destruct (calculate_velocity_store (st ++ [w]) (length st))
        as [-> | (df & stamps & _ & _ & ->)].
      - apply take_app_length.
      - rewrite take_insert_ge by lia. apply take_app_length. }
    destruct (calculate_velocity to_datetime (length st) (st ++ [w]))
      as [[vel | e] st']; simpl in Hv |- *; [|assumption].
    destruct (st' !! length st); assumption.
  - unfold analyze_wallet, bind, frame. rewrite H. simpl. apply take_ge. lia.
Qed.

(** What the two stateful functions write. [analyze_wallet] leaves every
    frame of the store exactly as it was: the subset it works on is a new
    frame. [calculate_velocity] leaves all other frames alone, and in the
    frame it is given every column but the timestamps. *)
Theorem analysis_leaves_input (self : CryptoTransactionAnalyzer) (a : string)
    (st : Store) (r : nat) :
  take (length st) (snd (analyze_wallet to_datetime self a r st)) = st
  /\ (forall r', r' <> r ->
        snd (calculate_velocity to_datetime r st) !! r' = st !! r')
  /\ (forall df, st !! r = Some df ->
        exists df',
          snd (calculate_velocity to_datetime r st) !! r = Some df'
          /\ map from_address df' = map from_address df
          /\ map to_address df' = map to_address df
          /\ map amount df' = map amount df
          /\ map transaction_hash df' = map transaction_hash df
          /\ (df' = df
              \/ exists stamps,
                   column_to_datetime to_datetime (map timestamp df) = Some stamps
                   /\ map timestamp df' = map TsStamp stamps)).
Proof.
  split; [apply analyze_wallet_store|]. split.
  - intros r' Hne.
    destruct (calculate_velocity_store st r) as [-> | (df & stamps & _ & _ & ->)];
      [reflexivity | now apply list_lookup_insert_ne].
  - intros df Hdf.
    destruct (calculate_velocity_store st r) as [-> | (df0 & stamps & H0 & Hp & ->)].
    + exists df. repeat split; auto.
    + assert (df0 = df) by congruence. subst df0.
      pose proof (column_to_datetime_length _ _ _ Hp) as Hlen.
      rewrite length_map in Hlen.
      assert (Hcells : length (map TsStamp stamps) = length df)
        by now rewrite length_map.
      exists (with_parsed_timestamps df stamps).
      split; [apply list_lookup_insert_eq; eapply lookup_lt_Some; eauto|].
      unfold with_parsed_timestamps.
      rewrite !assign_timestamp_keeps by (auto; reflexivity).
      repeat split. right. exists stamps. split; [assumption|].
      now apply assign_timestamp_column.
Qed.

End FrameProperties.

Lemma analysis_leaves_input_witness :
  take 1 (snd (analyze_wallet iso8601 init "A" 0 [example_transactions]))
  = [example_transactions]
  /\ exists df',
       snd (calculate_velocity iso8601 0 [example_transactions]) !! 0 = Some df'
       /\ map amount df' = map amount example_transactions.
Proof.
  split.
  - exact (proj1 (analysis_leaves_input iso8601 init "A" [example_transactions] 0)).
  - destruct (proj2 (proj2 (analysis_leaves_input iso8601 init "A"
                              [example_transactions] 0))
                example_transactions eq_refl)
      as (df' & Hdf' & _ & _ & Hamount & _).
    exists df'. split; assumption.
Defined.

(** Called on a frame of its own, [calculate_velocity] changes that frame:
    the texts of the timestamp column give way to instants. *)
Lemma calculate_velocity_rewrites_frame :
  snd (calculate_velocity iso8601 0 [example_transactions])
  = [[ set_timestamp (mk_tx "2024-01-01T10:00:00" "A" "B" 1.5)
         (TsStamp 1704103200000000000);
       set_timestamp (mk_tx "2024-01-01T11:00:00" "B" "A" 2.0)
         (TsStamp 1704106800000000000) ]]
  /\ snd (calculate_velocity iso8601 0 [example_transactions])
     <> [example_transactions].
Proof.
  split; [vm_compute; reflexivity|]. vm_compute. discriminate.
Qed.

(** * Further properties of the analysis *)

(** ** Risk rules: round amounts, order and growth of the findings *)

Lemma is_integer_iff (x : Q) :
  is_integer x = true <-> exists z : Z, (x == inject_Z z)%Q.
Proof.
  unfold is_integer, Qeq. simpl. rewrite Z.eqb_eq. split.
  - intros H. exists (Qnum x / Zpos (Qden x))%Z.
    pose proof (Z.div_mod (Qnum x) (Zpos (Qden x)) ltac:(lia)). lia.
  - intros (z & H). rewrite Z.mul_1_r in H. rewrite H. apply Z.mod_mul. lia.
Qed.

Lemma count_round (self : CryptoTransactionAnalyzer) (txs : DataFrame) :
  count_occ string_dec (check_risk_indicators self txs) round_finding
  = if round_amounts (suspicious_patterns (risk_indicators self))
       && py_any (map (fun t => is_integer (amount t)) txs)
    then 1 else 0.
Proof.
  rewrite check_risk_indicators_rules, !count_occ_app.
  rewrite count_occ_mixing_other by apply mixing_finding_not_round.
  destruct (py_any (map near_threshold txs)); destruct (_ && _); reflexivity.
Qed.

(** On a float64 amount column the round-number finding is emitted once when
    round-amount detection is on and some amount of the subset is a whole
    number, and not at all otherwise; with detection off it is never
    emitted. *)
Theorem round_amount_rule (self : CryptoTransactionAnalyzer) (txs : DataFrame) :
  let n := count_occ string_dec (check_risk_indicators self txs) round_finding in
  let whole := exists t, In t txs /\ exists z : Z, (amount t == inject_Z z)%Q in
  (n = 1 <-> round_amounts (suspicious_patterns (risk_indicators self)) = true /\ whole)
  /\ (n = 0 <-> ~ (round_amounts (suspicious_patterns (risk_indicators self)) = true
                   /\ whole))
  /\ (round_amounts (suspicious_patterns (risk_indicators self)) = false ->
      ~ In round_finding (check_risk_indicators self txs)).
Proof.
  cbv zeta.
  assert (Hw : py_any (map (fun t => is_integer (amount t)) txs) = true <->
               exists t, In t txs /\ exists z : Z, (amount t == inject_Z z)%Q).
  { rewrite py_any_map. split; intros (t & Hin & H); exists t; split; auto;
      now apply is_integer_iff. }
  rewrite count_round, <- Hw, <- andb_true_iff.
  destruct (round_amounts _ && py_any _) eqn:E.
  - split; [tauto|]. split; [split; [discriminate | intros H; now contradiction H]|].
    intros Hoff. apply andb_true_iff in E as [E _]. congruence.
  - split; [split; discriminate|]. split; [split; [discriminate | reflexivity]|].
    intros _. rewrite (count_occ_not_In string_dec), count_round, E. reflexivity.
Qed.

Lemma round_amount_rule_witness :
  ~ In round_finding
      (check_risk_indicators
         {| risk_indicators :=
              {| mixing_service := ["wasabi"];
                 high_risk_jurisdictions := [];
                 suspicious_patterns :=
                   {| structuring := 9999; velocity := 5; round_amounts := false |} |} |}
         [mk_tx "2024-01-01T10:00:00" "A" "B" 2.0]).
Proof.
  apply (proj2 (proj2 (round_amount_rule _ _))). reflexivity.
Defined.

Lemma sublist_map {A B : Type} (f : A -> B) (l1 l2 : list A) :
  sublist l1 l2 -> sublist (map f l1) (map f l2).
Proof. induction 1; simpl; now constructor. Qed.

Lemma sublist_if_singleton {A : Type} (b : bool) (x : A) :
  sublist (if b then [x] else []) [x].
Proof. destruct b; repeat constructor. Qed.

(** X2. The findings come in rule order: they are what is left of the list
    (one finding per configured mixer, in configuration order, then
    structuring, then round numbers) when the rules that did not fire are
    struck out; so there are never more findings than mixers plus two. *)
Theorem findings_in_rule_order (self : CryptoTransactionAnalyzer) (txs : DataFrame) :
  sublist (check_risk_indicators self txs) (all_findings self)
  /\ length (check_risk_indicators self txs)
     <= length (mixing_service (risk_indicators self)) + 2.
Proof.
  assert (Hsub : sublist (check_risk_indicators self txs) (all_findings self)).
  { rewrite check_risk_indicators_rules. unfold all_findings.
    apply sublist_app; [apply sublist_map, filter_sublist|].
    change [structuring_finding; round_finding]
      with ([structuring_finding] ++ [round_finding]).
    apply sublist_app; apply sublist_if_singleton. }
  split; [assumption|].
  apply sublist_length in Hsub. unfold all_findings in Hsub.
  rewrite length_app, length_map in Hsub. simpl in Hsub. lia.
Qed.

Lemma filter_sublist_impl {A : Type} (f g : A -> bool) (l : list A) :
  (forall x, f x = true -> g x = true) ->
  sublist (List.filter f l) (List.filter g l).
Proof.
  intros H. induction l as [|x l IH]; simpl; [constructor|].
  destruct (f x) eqn:E.
  - rewrite (H x E). now constructor.
  - destruct (g x); [now constructor | assumption].
Qed.

Lemma sublist_if_grows {A : Type} (b b' : bool) (x : A) :
  (b = true -> b' = true) ->
  sublist (if b then [x] else []) (if b' then [x] else []).
Proof.
  intros H. destruct b; [rewrite H by reflexivity; reflexivity|].
  destruct b'; repeat constructor.
Qed.

Lemma py_any_map_app {A : Type} (f : A -> bool) (l l' : list A) :
  py_any (map f l) = true -> py_any (map f (l ++ l')) = true.
Proof.
  rewrite !py_any_map. intros (x & Hin & H). exists x. split; [|assumption].
  apply in_or_app. now left.
Qed.

(** X3. Rows only add findings: every finding for a set of rows is still
    there, in the same order, when more rows are appended. *)
Theorem findings_grow (self : CryptoTransactionAnalyzer) (txs more : DataFrame) :
  sublist (check_risk_indicators self txs) (check_risk_indicators self (txs ++ more)).
Proof.
  rewrite !check_risk_indicators_rules.
  apply sublist_app; [|apply sublist_app].
  - apply sublist_map, filter_sublist_impl. intros m. rewrite !mixer_hit_iff.
    intros (t & Hin & H). exists t. split; [|assumption].
    apply in_or_app. now left.
  - apply sublist_if_grows, py_any_map_app.
  - apply sublist_if_grows. rewrite !andb_true_iff. intros [H1 H2].
    split; [assumption | now apply py_any_map_app].
Qed.

(** ** Velocity: repeated calls, failure, and where the floor applies *)

Lemma assign_timestamp_twice (df : DataFrame) (col : list TsCell) :
  assign_timestamp (assign_timestamp df col) col = assign_timestamp df col.
Proof.
  revert col. induction df as [|t df IH]; intros [|c col]; simpl; try reflexivity.
  now rewrite IH.
Qed.

Lemma assign_timestamp_nil_iff (df : DataFrame) (col : list TsCell) :
  length col = length df -> df <> [] -> assign_timestamp df col <> [].
Proof.
  destruct df as [|t df]; [congruence|]. destruct col as [|c col]; [discriminate|].
  discriminate.
Qed.

Section VelocityProperties.

Variable to_datetime : string -> option Z.

Lemma column_to_datetime_parsed (stamps : list Z) :
  column_to_datetime to_datetime (map TsStamp stamps) = Some stamps.
Proof.
  induction stamps as [|ns l IH]; simpl; [reflexivity | now rewrite IH].
Qed.

(** X4. Calling [calculate_velocity] again on the same frame changes nothing
    more: the second call returns what the first returned and leaves the
    store as the first left it, whether the first call succeeded or raised. *)
Theorem calculate_velocity_again (st : Store) (r : nat) :
  calculate_velocity to_datetime r (snd (calculate_velocity to_datetime r st))
  = calculate_velocity to_datetime r st.
Proof.
  destruct (st !! r) as [df|] eqn:H.
  - destruct df as [|t df].
    + rewrite (calculate_velocity_empty to_datetime st r H). simpl.
      now apply calculate_velocity_empty.
    + destruct (column_to_datetime to_datetime (map timestamp (t :: df)))
        as [stamps|] eqn:Hparse.
      * assert (Hne : t :: df <> []) by discriminate.
        rewrite (calculate_velocity_run to_datetime st r (t :: df) stamps H Hne Hparse).
        cbn [snd].
        pose proof (column_to_datetime_length _ _ _ Hparse) as Hlen.
        rewrite length_map in Hlen.
        assert (Hcells : length (map TsStamp stamps) = length (t :: df))
          by now rewrite length_map.
        assert (Hr : r < length st) by (eapply lookup_lt_Some; eauto).
        rewrite (calculate_velocity_run to_datetime _ r
                   (with_parsed_timestamps (t :: df) stamps) stamps).
        -- unfold with_parsed_timestamps at 2 3.
           rewrite assign_timestamp_twice, list_insert_insert_eq.
           unfold with_parsed_timestamps.
           now rewrite assign_timestamp_length by assumption.
        -- now apply list_lookup_insert_eq.
        -- now apply assign_timestamp_nil_iff.
        -- unfold with_parsed_timestamps.
           rewrite assign_timestamp_column by assumption.
           apply column_to_datetime_parsed.
      * assert (Hne : t :: df <> []) by discriminate.
        rewrite (calculate_velocity_raise to_datetime st r (t :: df) H Hne Hparse).
        cbn [snd]. now apply (calculate_velocity_raise to_datetime st r (t :: df)).
  - rewrite (calculate_velocity_dangling to_datetime st r H). cbn [snd].
    now apply calculate_velocity_dangling.
Qed.

(** X5. [calculate_velocity] on a frame succeeds exactly when the frame is
    empty or its whole timestamp column parses; otherwise it raises the
    parser's error. A call that raises has written nothing. *)
Theorem calculate_velocity_outcome (st : Store) (r : nat) (df : DataFrame)
    (Hdf : st !! r = Some df) :
  ((exists v, fst (calculate_velocity to_datetime r st) = Ok v) <->
   df = [] \/ exists stamps,
               column_to_datetime to_datetime (map timestamp df) = Some stamps)
  /\ (forall e, fst (calculate_velocity to_datetime r st) = Raise e ->
        e = ParseError /\ snd (calculate_velocity to_datetime r st) = st).
Proof.
  destruct df as [|t df].
  - rewrite (calculate_velocity_empty to_datetime st r Hdf). cbn [fst snd].
    split; [split; eauto | discriminate].
  - assert (Hne : t :: df <> []) by discriminate.
    destruct (column_to_datetime to_datetime (map timestamp (t :: df)))
      as [stamps|] eqn:Hparse.
    + rewrite (calculate_velocity_run to_datetime st r (t :: df) stamps Hdf Hne Hparse).
      cbn [fst snd]. split; [split; eauto | discriminate].
    + rewrite (calculate_velocity_raise to_datetime st r (t :: df) Hdf Hne Hparse).
      cbn [fst snd]. split.
      * split; [intros (v & Hv); discriminate|].
        intros [H | (stamps & H)]; discriminate.
      * intros e [= <-]. auto.
Qed.

(** X6. Where the floor of the divisors applies. On a non-empty frame whose
    timestamps parse, the hourly average is positive and the daily average
    is at most the number of rows; the hourly average is the number of rows
    exactly when the rows span at most one hour, and the daily average is
    the number of rows exactly when they span at most twenty-four hours. *)
Theorem velocity_floor (st : Store) (r : nat) (df : DataFrame) (stamps : list Z)
    (Hdf : st !! r = Some df) (Hne : df <> [])
    (Hparse : column_to_datetime to_datetime (map timestamp df) = Some stamps) :
  exists v,
    fst (calculate_velocity to_datetime r st) = Ok v
    /\ let count := inject_Z (Z.of_nat (length df)) in
       (0 < hourly_avg v)%Q
       /\ (daily_avg v <= count)%Q
       /\ ((hourly_avg v == count)%Q <->
           (time_range_of stamps <= 3600 * 1000000000)%Z)
       /\ ((daily_avg v == count)%Q <->
           (time_range_of stamps <= 24 * 3600 * 1000000000)%Z).
Proof.
  rewrite (calculate_velocity_run to_datetime st r df stamps) by assumption.
  eexists. split; [reflexivity|]. cbv zeta. unfold velocity_metrics.
  cbn [hourly_avg daily_avg]. fold (span_hours (time_range_of stamps)).
  pose proof (span_hours_nonneg _ (time_range_nonneg stamps)) as Hge.
  assert (Hh : forall bound : Z,
             (span_hours (time_range_of stamps) <= inject_Z bound)%Q <->
             (time_range_of stamps <= bound * 3600000000000)%Z).
  { intros bound. unfold span_hours, total_seconds. rewrite Zle_Qle, inject_Z_mult.
    change (inject_Z 3600000000000) with 3600000000000%Q.
    set (x := inject_Z (time_range_of stamps)). set (b := inject_Z bound).
    split; intros H.
    - assert (E : (x == x / 1000000000 / 3600 * 3600000000000)%Q) by field.
      rewrite E. apply Qmult_le_compat_r; [assumption | discriminate].
    - do 2 (apply Qle_shift_div_r; [reflexivity|]).
      assert (E : (b * 3600 * 1000000000 == b * 3600000000000)%Q) by ring.
      now rewrite E. }
  set (h := span_hours (time_range_of stamps)) in *.
  set (n := inject_Z (Z.of_nat (length df))).
  assert (Hn : (0 < n)%Q).
  { unfold n. change 0%Q with (inject_Z 0). rewrite <- Zlt_Qlt.
    destruct df; [congruence | simpl; lia]. }
  pose proof (py_max_ge_1 h) as H1. pose proof (py_max_ge_1 (h / 24)) as H24.
  assert (Hdiv : forall d : Q, (1 <= d)%Q -> ((n / d == n)%Q <-> (d <= 1)%Q)).
  { intros d Hd. split; intros H.
    - assert (E : (d == n / (n / d))%Q) by (field; split; lra).
      rewrite E, H. apply Qle_lteq. right. field. lra.
    - assert (E : (d == 1)%Q) by (apply Qle_antisym; assumption).
      rewrite E. field. }
  split; [apply Qlt_shift_div_l; lra|].
  split; [apply Qdiv_le_self; lra|].
  split.
  - rewrite (Hdiv _ H1), py_max_Qmax, Q.max_lub_iff.
    change (3600 * 1000000000)%Z with (1 * 3600000000000)%Z.
    rewrite <- Hh. change (inject_Z 1) with 1%Q. split; [tauto|].
    intros H. split; [assumption | apply Qle_refl].
  - rewrite (Hdiv _ H24), py_max_Qmax, Q.max_lub_iff.
    change (24 * 3600 * 1000000000)%Z with (24 * 3600000000000)%Z.
    rewrite <- Hh. change (inject_Z 24) with 24%Q. split.
    + intros [H _]. assert (E : (h == h / 24 * 24)%Q) by field.
      set (y := (h / 24)%Q) in *. rewrite E. lra.
    + intros H. split; [apply Qle_shift_div_r; [reflexivity | lra] | apply Qle_refl].
Qed.

End VelocityProperties.

Lemma calculate_velocity_outcome_witness :
  fst (calculate_velocity iso8601 0 [[mk_tx "yesterday" "A" "B" 1.5]]) = Raise ParseError
  /\ snd (calculate_velocity iso8601 0 [[mk_tx "yesterday" "A" "B" 1.5]])
     = [[mk_tx "yesterday" "A" "B" 1.5]].
Proof.
  destruct (fst (calculate_velocity iso8601 0 [[mk_tx "yesterday" "A" "B" 1.5]]))
    as [v | e] eqn:E; [vm_compute in E; discriminate|].
  destruct (proj2 (calculate_velocity_outcome iso8601
                     [[mk_tx "yesterday" "A" "B" 1.5]] 0
                     [mk_tx "yesterday" "A" "B" 1.5] eq_refl) e E) as [-> Hst].
  split; [reflexivity | exact Hst].
Defined.

Lemma velocity_floor_witness :
  exists v,
    fst (calculate_velocity iso8601 0 [example_transactions]) = Ok v
    /\ (hourly_avg v == 2)%Q /\ (daily_avg v == 2)%Q.
Proof.
  destruct (velocity_floor iso8601 [example_transactions] 0 example_transactions
              [1704103200000000000; 1704106800000000000]%Z
              eq_refl ltac:(discriminate) ltac:(vm_compute; reflexivity))
    as (v & Hv & _ & _ & Hh & Hd).
  exists v. split; [exact Hv|]. split.
  - apply (proj2 Hh). vm_compute. discriminate.
  - apply (proj2 Hd). vm_compute. discriminate.
Defined.

(** ** Counterparties: what the ranking holds *)

Lemma ranking_perm (a : string) (S : DataFrame) :
  Permutation (ranking a S) (map entry_of (counterparty_volumes a S)).
Proof. unfold ranking. apply sorted_desc_perm. Qed.

Lemma top_is_prefix (a : string) (S : DataFrame) (top_n : Z) :
  exists k, get_top_counterparties a S top_n = firstn k (ranking a S).
Proof.
  unfold get_top_counterparties, py_slice_to. fold (ranking a S).
  destruct (0 <=? top_n)%Z; eauto.
Qed.

Lemma dict_get_unique (d : VolumeDict) (k : string) (v default : Q) :
  List.NoDup (map fst d) -> In (k, v) d -> dict_get d k default = v.
Proof.
  induction d as [|[k' v'] d IH]; simpl; intros Hnd Hin; [destruct Hin|].
  inversion Hnd as [|? ? Hnotin Hnd']; subst.
  destruct Hin as [[= -> ->] | Hin].
  - now rewrite String.eqb_refl.
  - destruct (String.eqb k' k) eqn:E; [|now apply IH].
    apply String.eqb_eq in E. subst. exfalso. apply Hnotin.
    apply in_map_iff. now exists (k, v).
Qed.

Lemma NoDup_firstn {A : Type} (k : nat) (l : list A) :
  List.NoDup l -> List.NoDup (firstn k l).
Proof.
  revert k. induction l as [|x l IH]; intros [|k] H; simpl; try constructor.
  - inversion H; subst. intros Hin. apply firstn_In in Hin. tauto.
  - inversion H; subst. now apply IH.
Qed.

Lemma ranking_addresses_NoDup (a : string) (S : DataFrame) :
  List.NoDup (map cp_address (ranking a S)).
Proof.
  apply (Permutation_NoDup
           (Permutation_sym (Permutation_map cp_address (ranking_perm a S)))).
  rewrite map_map. apply counterparty_volumes_NoDup.
Qed.

(** X8. Whatever [top_n] is, the entries of [get_top_counterparties] name
    pairwise distinct addresses; each entry's address is the other party of
    some row, and its volume is the sum of the amounts of the rows attributed
    to that address. *)
Theorem top_entries (a : string) (S : DataFrame) (top_n : Z) :
  List.NoDup (map cp_address (get_top_counterparties a S top_n))
  /\ (forall cp, In cp (get_top_counterparties a S top_n) ->
        (exists t, In t S /\ counterparty_of a t = cp_address cp)
        /\ (cp_volume cp == attributed a S (cp_address cp))%Q).
Proof.
  destruct (top_is_prefix a S top_n) as [k ->]. split.
  - rewrite <- firstn_map. apply NoDup_firstn, ranking_addresses_NoDup.
  - intros cp Hin. apply firstn_In in Hin.
    apply (Permutation_in _ (ranking_perm a S)) in Hin.
    apply in_map_iff in Hin as ([key v] & <- & Hin). cbn [entry_of cp_address cp_volume fst snd].
    split.
    + apply counterparty_volumes_keys, in_map_iff. now exists (key, v).
    + rewrite <- (dict_get_unique _ key v 0 (counterparty_volumes_NoDup a S) Hin).
      apply counterparty_volumes_get.
Qed.

Lemma top_entries_witness :
  (cp_volume {| cp_address := "B"; cp_volume := 0 + 1.5 + 2.0 |}
   == attributed "A" example_transactions "B")%Q.
Proof.
  apply (proj2 (top_entries "A" example_transactions 5)
           {| cp_address := "B"; cp_volume := 0 + 1.5 + 2.0 |}).
  left. reflexivity.
Defined.

Lemma StronglySorted_app_inv {A : Type} (R : A -> A -> Prop) (l1 l2 : list A) :
  StronglySorted R (l1 ++ l2) -> forall x y, In x l1 -> In y l2 -> R x y.
Proof.
  induction l1 as [|z l1 IH]; simpl; intros Hs x y Hx Hy; [destruct Hx|].
  inversion Hs as [|? ? Hs' Hall]; subst. destruct Hx as [-> | Hx].
  - apply (proj1 (List.Forall_forall _ _) Hall). apply in_or_app. now right.
  - now apply IH.
Qed.

(** X9. The cut keeps the best: the full ranking is [top_counterparties]
    followed by the entries left out, and no entry left out has a larger
    volume than an entry kept. *)
Theorem top_dominates (a : string) (S : DataFrame) (top_n : Z) :
  exists rest,
    ranking a S = get_top_counterparties a S top_n ++ rest
    /\ forall kept out,
         In kept (get_top_counterparties a S top_n) -> In out rest ->
         (cp_volume out <= cp_volume kept)%Q.
Proof.
  destruct (top_is_prefix a S top_n) as [k ->].
  exists (skipn k (ranking a S)). split; [symmetry; apply firstn_skipn|].
  intros kept out Hk Ho.
  apply (StronglySorted_app_inv volume_ge (firstn k (ranking a S))
           (skipn k (ranking a S))); try assumption.
  rewrite firstn_skipn. apply sorted_desc_sorted.
Qed.

Lemma unique_from_ext (s1 s2 col : list string) :
  (forall x, In x s1 <-> In x s2) -> unique_from s1 col = unique_from s2 col.
Proof.
  revert s1 s2. induction col as [|y col IH]; intros s1 s2 H; simpl; [reflexivity|].
  assert (E : existsb (String.eqb y) s1 = existsb (String.eqb y) s2).
  { destruct (existsb (String.eqb y) s1) eqn:E1; symmetry.
    - apply existsb_eqb_In. apply H. now apply existsb_eqb_In.
    - destruct (existsb (String.eqb y) s2) eqn:E2; [|reflexivity].
      apply existsb_eqb_In, H, existsb_eqb_In in E2. congruence. }
  rewrite E. destruct (existsb (String.eqb y) s2); [now apply IH|].
  f_equal. apply IH. intros x. simpl. now rewrite H.
Qed.

Lemma dict_set_keys (d : VolumeDict) (k : string) (v : Q) :
  map fst (dict_set d k v)
  = if existsb (String.eqb k) (map fst d) then map fst d else map fst d ++ [k].
Proof.
  induction d as [|[k' v'] d IH]; simpl; [reflexivity|].
  rewrite (String.eqb_sym k k'). destruct (String.eqb k' k); simpl; [reflexivity|].
  rewrite IH. now destruct (existsb (String.eqb k) (map fst d)).
Qed.

Lemma fold_volumes_keys (a : string) (txs : DataFrame) (d : VolumeDict) :
  map fst (fold_left (add_volume a) txs d)
  = map fst d ++ unique_from (map fst d) (map (counterparty_of a) txs).
Proof.
  revert d. induction txs as [|t txs IH]; intros d; simpl.
  - now rewrite app_nil_r.
  - rewrite IH. unfold add_volume at 1 2. rewrite dict_set_keys.
    destruct (existsb (String.eqb (counterparty_of a t)) (map fst d)); [reflexivity|].
    rewrite <- app_assoc. simpl. do 2 f_equal.
    apply unique_from_ext. intros x. rewrite in_app_iff. simpl. tauto.
Qed.

Lemma insert_desc_filter (v : Q) (x : CounterpartyVolume) (l : list CounterpartyVolume) :
  List.filter (same_volume v) (insert_desc x l) = List.filter (same_volume v) (x :: l).
Proof.
  induction l as [|y l IH]; [reflexivity|]. cbn [insert_desc].
  destruct (Qlt_bool (cp_volume x) (cp_volume y)) eqn:E; [|reflexivity].
  cbn [List.filter] in *. rewrite IH.
  destruct (same_volume v x) eqn:Ex; destruct (same_volume v y) eqn:Ey; try reflexivity.
  exfalso. unfold same_volume in *. apply Qeq_bool_iff in Ex, Ey.
  apply Qlt_bool_iff in E. rewrite Ex, Ey in E. now apply Qlt_irrefl in E.
Qed.

Lemma sorted_desc_filter (v : Q) (l : list CounterpartyVolume) :
  List.filter (same_volume v) (sorted_desc l) = List.filter (same_volume v) l.
Proof.
  induction l as [|x l IH]; [reflexivity|]. cbn [sorted_desc fold_right].
  fold (sorted_desc l). rewrite insert_desc_filter. cbn [List.filter]. now rewrite IH.
Qed.

(** X10. Ties are broken by first appearance. The dictionary lists the
    counterparties in the order in which they first occur in the rows, and
    the ranking keeps that order among entries of equal volume. *)
Theorem ties_keep_first_seen_order (a : string) (S : DataFrame) :
  map fst (counterparty_volumes a S) = unique (map (counterparty_of a) S)
  /\ forall v,
       List.filter (same_volume v) (ranking a S)
       = List.filter (same_volume v) (map entry_of (counterparty_volumes a S)).
Proof.
  split.
  - rewrite counterparty_volumes_fold, fold_volumes_keys. reflexivity.
  - intros v. unfold ranking. apply sorted_desc_filter.
Qed.

Lemma counterparty_set_in_keys (a : string) (S : DataFrame) (c : string) :
  c ∈ counterparty_set a S -> In c (map fst (counterparty_volumes a S)).
Proof.
  intros Hc. apply counterparty_set_spec in Hc. apply counterparty_volumes_keys.
  destruct Hc as [(t & Hin & H) | (t & Hin & H)]; exists t;
    (split; [assumption | apply counterparty_of_involved; tauto]).
Qed.

Lemma ranking_addresses (a : string) (S : DataFrame) (c : string) :
  In c (map cp_address (ranking a S)) <-> In c (map fst (counterparty_volumes a S)).
Proof.
  replace (map fst (counterparty_volumes a S))
    with (map cp_address (map entry_of (counterparty_volumes a S)))
    by (rewrite map_map; reflexivity).
  split; apply Permutation_in; [|apply Permutation_sym];
    apply Permutation_map, ranking_perm.
Qed.

Lemma unique_le_keys (a : string) (S : DataFrame) :
  size (counterparty_set a S) <= length (counterparty_volumes a S).
Proof.
  rewrite <- (length_map fst (counterparty_volumes a S)).
  rewrite <- (size_list_to_set (C := gset string))
    by apply NoDup_ListNoDup, counterparty_volumes_NoDup.
  apply subseteq_size. intros c Hc.
  apply elem_of_list_to_set, list_elem_of_In. now apply counterparty_set_in_keys.
Qed.

(** X11. On a frame that was not filtered by the address, a row that does
    not involve the address is attributed to its sender, so the ranking can
    name addresses that never dealt with the wallet. In every case the
    ranking names all counted counterparties, and
    [unique_counterparties] is at most the number of ranked addresses. *)
Theorem ranking_on_any_frame (a : string) (S : DataFrame) :
  (forall t, In t S -> involves a t = false ->
     In (from_address t) (map cp_address (ranking a S))
     /\ from_address t <> a)
  /\ (forall c, c ∈ counterparty_set a S -> In c (map cp_address (ranking a S)))
  /\ unique_counterparties (analyze_counterparties a S) <= length (ranking a S).
Proof.
  split; [|split].
  - intros t Hin Hinv. unfold involves in Hinv. apply orb_false_iff in Hinv as [Hf _].
    split; [|now apply String.eqb_neq].
    apply ranking_addresses, counterparty_volumes_keys. exists t.
    split; [assumption|]. unfold counterparty_of. now rewrite Hf.
  - intros c Hc. now apply ranking_addresses, counterparty_set_in_keys.
  - rewrite ranking_length. apply unique_le_keys.
Qed.

Lemma ranking_on_any_frame_witness :
  In "C" (map cp_address (ranking "A" mixed_transactions)).
Proof.
  apply (proj1 (ranking_on_any_frame "A" mixed_transactions)
           (mk_tx "2024-01-01T09:00:00" "C" "D" 4));
    [left; reflexivity | reflexivity].
Defined.

(** On those rows A has one counterparty, yet two addresses are ranked. *)
Example ranking_exceeds_unique :
  unique_counterparties (analyze_counterparties "A" mixed_transactions) = 1
  /\ map cp_address (top_counterparties (analyze_counterparties "A" mixed_transactions))
     = ["C"; "B"].
Proof. split; vm_compute; reflexivity. Qed.

(** ** The orchestrator: outcome and consistency of the result *)

Lemma select_rows_assign {B : Type} (col : Transaction -> B)
    (df : DataFrame) (cells : list TsCell) (mask : list bool) :
  (forall t c, col (set_timestamp t c) = col t) ->
  length cells = length df ->
  map col (select_rows (assign_timestamp df cells) mask)
  = map col (select_rows df mask).
Proof.
  intros Hcol. revert cells mask.
  induction df as [|t df IH]; intros [|c cells] mask H; simpl in *;
    try reflexivity; try discriminate.
  destruct mask as [|[|] mask]; simpl; [reflexivity | |].
  - rewrite Hcol. f_equal. apply IH. lia.
  - apply IH. lia.
Qed.

Lemma fold_volumes_assign (a : string) (df : DataFrame) (cells : list TsCell)
    (d : VolumeDict) :
  length cells = length df ->
  fold_left (add_volume a) (assign_timestamp df cells) d
  = fold_left (add_volume a) df d.
Proof.
  revert cells d. induction df as [|t df IH]; intros [|c cells] d H; simpl in *;
    try reflexivity; try discriminate.
  change (add_volume a d (set_timestamp t c)) with (add_volume a d t).
  apply IH. lia.
Qed.

(** The counterparty aggregation does not read the timestamps. *)
Lemma analyze_counterparties_assign (a : string) (df : DataFrame)
    (cells : list TsCell) :
  length cells = length df ->
  analyze_counterparties a (assign_timestamp df cells) = analyze_counterparties a df.
Proof.
  intros H.
  unfold analyze_counterparties, counterparty_set, sent_to, received_from,
    get_top_counterparties.
  rewrite !counterparty_volumes_fold, fold_volumes_assign by assumption.
  rewrite !(assign_timestamp_keeps from_address), !(assign_timestamp_keeps to_address)
    by (auto; reflexivity).
  rewrite !select_rows_assign by (auto; reflexivity).
  reflexivity.
Qed.

Section AnalysisProperties.

Variable to_datetime : string -> option Z.

Lemma calculate_velocity_fst (st : Store) (r : nat) (df : DataFrame) :
  st !! r = Some df ->
  fst (calculate_velocity to_datetime r st) = velocity_of to_datetime df.
Proof.
  intros H. unfold velocity_of. destruct df as [|t df].
  - now rewrite calculate_velocity_empty.
  - destruct (column_to_datetime to_datetime (map timestamp (t :: df)))
      as [stamps|] eqn:Hparse.
    + now rewrite (calculate_velocity_run to_datetime st r (t :: df) stamps).
    + now rewrite (calculate_velocity_raise to_datetime st r (t :: df)).
Qed.

Lemma analyze_wallet_fst (self : CryptoTransactionAnalyzer) (a : string)
    (st : Store) (r : nat) (T : DataFrame) :
  st !! r = Some T ->
  fst (analyze_wallet to_datetime self a r st)
  = analysis_of to_datetime self a (filter_by_address T a).
Proof.
  intros H. rewrite (analyze_wallet_run to_datetime self a st r T H). cbv zeta.
  set (w := filter_by_address T a). unfold analysis_of.
  assert (Hw : (st ++ [w]) !! length st = Some w) by now apply list_lookup_middle.
  rewrite <- (calculate_velocity_fst (st ++ [w]) (length st) w Hw).
  destruct (calculate_velocity_store to_datetime (st ++ [w]) (length st))
    as [Hst | (df & stamps & Hdf & Hp & Hst)].
  - destruct (calculate_velocity to_datetime (length st) (st ++ [w]))
      as [[vel | e] st']; cbn [fst snd] in *; [|reflexivity].
    subst st'. now rewrite Hw.
  - assert (df = w) by congruence. subst df.
    pose proof (column_to_datetime_length _ _ _ Hp) as Hlen.
    rewrite length_map in Hlen.
    destruct (calculate_velocity to_datetime (length st) (st ++ [w]))
      as [[vel | e] st']; cbn [fst snd] in *; [|reflexivity].
    subst st'. rewrite list_lookup_insert_eq
      by (rewrite length_app; simpl; lia).
    unfold with_parsed_timestamps.
    rewrite analyze_counterparties_assign by now rewrite length_map.
    reflexivity.
Qed.

(** X13. Filtering beforehand changes nothing: the analysis of an address
    over a frame and over that frame already filtered by the address return
    the same result. *)
Theorem analyze_wallet_prefiltered (self : CryptoTransactionAnalyzer) (a : string)
    (st st2 : Store) (r r2 : nat) (T : DataFrame)
    (HT : st !! r = Some T) (HW : st2 !! r2 = Some (filter_by_address T a)) :
  fst (analyze_wallet to_datetime self a r2 st2)
  = fst (analyze_wallet to_datetime self a r st).
Proof.
  rewrite (analyze_wallet_fst self a st r T HT).
  rewrite (analyze_wallet_fst self a st2 r2 _ HW).
  now rewrite !filter_by_address_filter, filter_filter_same.
Qed.

(** X14. The numbers of a successful analysis agree with each other: the
    transaction count is the number of rows with the address as sender or
    recipient, and at most the number of rows; there are no more
    counterparties than transactions, and at most five are listed. *)
Theorem analysis_consistent (self : CryptoTransactionAnalyzer) (a : string)
    (st : Store) (r : nat) (T : DataFrame) (res : WalletAnalysis)
    (HT : st !! r = Some T)
    (Hres : fst (analyze_wallet to_datetime self a r st) = Ok res) :
  address res = a
  /\ total_transactions res = length (List.filter (involves a) T)
  /\ total_transactions res <= length T
  /\ unique_counterparties (counterparties res) <= total_transactions res
  /\ length (top_counterparties (counterparties res)) <= 5.
Proof.
  rewrite (analyze_wallet_fst self a st r T HT) in Hres. unfold analysis_of in Hres.
  destruct (velocity_of to_datetime (filter_by_address T a)) as [vel|e];
    [|discriminate].
  injection Hres as <-.
  cbn [address total_transactions total_volume counterparties].
  unfold analyze_counterparties. cbn [unique_counterparties top_counterparties].
  split; [reflexivity|].
  split; [now rewrite filter_by_address_filter|].
  split; [rewrite filter_by_address_filter; apply filter_length_le|].
  split; [apply counterparty_set_size_le|].
  rewrite (top_length a _ 5) by lia. change (Z.to_nat 5) with 5. lia.
Qed.

End AnalysisProperties.

(** Rows with an unreadable timestamp: A, whose row is readable, can be
    analysed; C, whose row is not, cannot. *)
Example analyze_wallet_other_rows_unread :
  exists res, fst (analyze_wallet iso8601 init "A" 0 [dirty_transactions]) = Ok res.
Proof. eexists. vm_compute. reflexivity. Qed.

Example analyze_wallet_bad_timestamp :
  fst (analyze_wallet iso8601 init "C" 0 [dirty_transactions]) = Raise ParseError.
Proof. vm_compute. reflexivity. Qed.

Lemma analyze_wallet_prefiltered_witness :
  fst (analyze_wallet iso8601 init "A" 1
         [mixed_transactions; filter_by_address mixed_transactions "A"])
  = fst (analyze_wallet iso8601 init "A" 0 [mixed_transactions]).
Proof.
  apply (analyze_wallet_prefiltered iso8601 init "A" [mixed_transactions]
           [mixed_transactions; filter_by_address mixed_transactions "A"]
           0 1 mixed_transactions); reflexivity.
Defined.

Lemma analysis_consistent_witness :
  exists res,
    fst (analyze_wallet iso8601 init "A" 0 [example_transactions]) = Ok res
    /\ unique_counterparties (counterparties res) <= total_transactions res
    /\ total_transactions res <= 2.
Proof.
  destruct (fst (analyze_wallet iso8601 init "A" 0 [example_transactions]))
    as [res | e] eqn:E; [|vm_compute in E; discriminate].
  exists res. split; [reflexivity|].
  destruct (analysis_consistent iso8601 init "A" [example_transactions] 0
              example_transactions res eq_refl E)
    as (_ & _ & Hn & Hu & _).
  split; [exact Hu | exact Hn].
Defined.

Lemma In_mixing_finding (self : CryptoTransactionAnalyzer) (txs : DataFrame) (m : string) :
  In (mixing_finding m) (check_risk_indicators self txs) <->
  In m (mixing_service (risk_indicators self)) /\ mixer_hit txs m = true.
Proof.
  rewrite check_risk_indicators_rules, !in_app_iff, in_map_iff. split.
  - intros [(m' & E & Hin) | [H | H]].
    + apply mixing_finding_inj in E. subst m'. now apply filter_In in Hin.
    + destruct (py_any (map near_threshold txs)); [|destruct H].
      destruct H as [H | []]. discriminate.
    + destruct (_ && _); [|destruct H]. destruct H as [H | []]. discriminate.
  - intros [Hin Hhit]. left. exists m. split; [reflexivity|].
    apply filter_In. auto.
Qed.

(** X15. Through the analysis the mixing rule looks at the wallet's own rows
    only: for a successful analysis of an address other than a configured
    mixer, the finding naming that mixer is present exactly when the address
    itself sent a transaction to the mixer. *)
Theorem mixer_flagged_iff_sent (to_datetime : string -> option Z)
    (self : CryptoTransactionAnalyzer) (a m : string)
    (st : list (list Transaction)) (r : nat) (T : list Transaction)
    (res : WalletAnalysis)
    (HT : st !! r = Some T)
    (Hres : fst (analyze_wallet to_datetime self a r st) = Ok res)
    (Hm : In m (mixing_service (risk_indicators self)))
    (Hne : a <> m) :
  In (mixing_finding m) (found_risk_indicators res) <->
  exists t, In t T /\ from_address t = a /\ to_address t = m.
Proof.
  rewrite (analyze_wallet_fst to_datetime self a st r T HT) in Hres.
  unfold analysis_of in Hres.
  destruct (velocity_of to_datetime (filter_by_address T a)) as [vel|e];
    [|discriminate].
  injection Hres as <-. cbn [found_risk_indicators].
  rewrite In_mixing_finding, mixer_hit_iff, filter_by_address_filter. split.
  - intros [_ (t & Hin & Hto)]. apply filter_In in Hin as [Hin Hinv].
    apply involves_true in Hinv. exists t. intuition congruence.
  - intros (t & Hin & Hfrom & Hto). split; [assumption|]. exists t.
    split; [|assumption]. apply filter_In. split; [assumption|].
    apply involves_true. now left.
Qed.

Lemma mixer_flagged_iff_sent_witness :
  exists res,
    fst (analyze_wallet iso8601 init "A" 0
           [[mk_tx "2024-01-01T10:00:00" "B" "wasabi" 3;
             mk_tx "2024-01-01T11:00:00" "A" "B" 1.5]]) = Ok res
    /\ ~ In (mixing_finding "wasabi") (found_risk_indicators res).
Proof.
  destruct (fst (analyze_wallet iso8601 init "A" 0
                   [[mk_tx "2024-01-01T10:00:00" "B" "wasabi" 3;
                     mk_tx "2024-01-01T11:00:00" "A" "B" 1.5]]))
    as [res | e] eqn:E; [|vm_compute in E; discriminate].
  exists res. split; [reflexivity|]. intros Hin.
  apply (mixer_flagged_iff_sent iso8601 init "A" "wasabi"
           [[mk_tx "2024-01-01T10:00:00" "B" "wasabi" 3;
             mk_tx "2024-01-01T11:00:00" "A" "B" 1.5]] 0 _ res eq_refl E) in Hin.
  - destruct Hin as (t & [<- | [<- | []]] & Hf & Ht); discriminate.
  - simpl. auto.
  - discriminate.
Defined.

(** ** Filtering: how it composes *)

(** X16. The filter works row by row: filtering a concatenation is
    concatenating the filtered parts, filtering by two addresses gives the
    same rows in either order, and the subset is never longer than the
    frame. *)
Theorem filter_by_address_compose (T1 T2 : DataFrame) (a b : string) :
  filter_by_address (T1 ++ T2) a = filter_by_address T1 a ++ filter_by_address T2 a
  /\ filter_by_address (filter_by_address T1 a) b
     = filter_by_address (filter_by_address T1 b) a
  /\ length (filter_by_address T1 a) <= length T1.
Proof.
  rewrite !filter_by_address_filter. split; [apply List.filter_app|]. split.
  - induction T1 as [|t T1 IH]; simpl; [reflexivity|].
    destruct (involves a t) eqn:Ea; destruct (involves b t) eqn:Eb; simpl;
      rewrite ?Ea, ?Eb, IH; reflexivity.
  - apply filter_length_le.
Qed.

Lemma top_dominates_witness :
  exists rest,
    ranking "A" mixed_transactions
    = get_top_counterparties "A" mixed_transactions 1 ++ rest
    /\ forall out, In out rest -> (cp_volume out <= 0 + 4)%Q.
Proof.
  destruct (top_dominates "A" mixed_transactions 1) as (rest & Heq & Hdom).
  exists rest. split; [exact Heq|]. intros out Hout.
  apply (Hdom {| cp_address := "C"; cp_volume := 0 + 4 |} out); [|exact Hout].
  left. reflexivity.
Defined.

(** * The analysis on frames of every kind *)

(** ** The filter and the risk rules *)

Lemma filter_frame_table (dtype : AmountDtype) (T : list Transaction) (a : string) :
  filter_frame_by_address (Table dtype T) a
  = Returns (Table dtype (filter_by_address T a)).
Proof. reflexivity. Qed.

Lemma fold_check_mixer_on (dtype : AmountDtype) (rows : list Transaction)
    (ms : list string) (acc : list string) :
  fold_left (check_mixer_on (Table dtype rows)) ms (Returns acc)
  = Returns (fold_left (check_mixer rows) ms acc).
Proof.
  revert acc. induction ms as [|m ms IH]; intros acc; simpl; [reflexivity|].
  unfold check_mixer at 2. destruct (py_any (series_eq (map to_address rows) m)); apply IH.
Qed.

Lemma fold_check_mixer_on_raises (fr : Frame) (ms : list string) (e : raised) :
  fold_left (check_mixer_on fr) ms (Raises e) = Raises e.
Proof. induction ms as [|m ms IH]; simpl; [reflexivity | exact IH]. Qed.

Lemma py_any_all_true {A : Type} (l : list A) :
  py_any (map (fun _ => true) l) = negb (length l =? 0).
Proof. destruct l; reflexivity. Qed.

Section FrameRiskProperties.

Variable int_has_is_integer : bool.

(** On a float64 amount column the rule engine returns the findings of
    [check_risk_indicators]. *)
Lemma check_risk_indicators_on_float (self : CryptoTransactionAnalyzer)
    (rows : list Transaction) :
  check_risk_indicators_on int_has_is_integer self (Table Float64 rows)
  = Returns (check_risk_indicators self rows).
Proof.
  unfold check_risk_indicators_on, check_risk_indicators.
  rewrite fold_check_mixer_on. cbn [obind getitem apply_is_integer].
  destruct (round_amounts _); [|reflexivity].
  destruct (map amount rows); reflexivity.
Qed.

(** On an int64 amount column it raises when round-amount detection is on,
    there is a row, and [int] has no [is_integer]. *)
Lemma check_risk_indicators_on_int (self : CryptoTransactionAnalyzer)
    (rows : list Transaction) :
  check_risk_indicators_on int_has_is_integer self (Table Int64 rows)
  = if round_amounts (suspicious_patterns (risk_indicators self))
       && negb (length rows =? 0) && negb int_has_is_integer
    then Raises IsIntegerAttributeError
    else Returns (int_findings self rows).
Proof.
  unfold check_risk_indicators_on, int_findings.
  rewrite fold_check_mixer_on, fold_check_mixer. cbn [obind getitem app].
  unfold series_gt, series_lt. rewrite series_and_map, !map_map.
  change (fun x : Transaction => Qlt_bool 9900 (amount x) && Qlt_bool (amount x) 10000)
    with near_threshold.
  remember (py_any (map near_threshold rows)) as near eqn:Hnear. clear Hnear.
  remember (map mixing_finding
              (List.filter (mixer_hit rows) (mixing_service (risk_indicators self))))
    as mixers eqn:Hmixers. clear Hmixers.
  destruct (round_amounts _); cbn [andb].
  - destruct rows as [|t rows].
    + cbn. destruct near; now rewrite ?app_nil_r, <- ?app_assoc.
    + cbn [apply_is_integer map length Nat.eqb negb andb].
      destruct int_has_is_integer; cbn [negb obind]; [|reflexivity].
      cbn [py_any]. destruct near; cbn [app]; rewrite <- ?app_assoc; reflexivity.
  - destruct near; now rewrite ?app_nil_r.
Qed.

Lemma check_risk_indicators_on_nocolumns (self : CryptoTransactionAnalyzer) :
  exists column,
    check_risk_indicators_on int_has_is_integer self NoColumns
    = Raises (ColumnKeyError column).
Proof.
  unfold check_risk_indicators_on.
  destruct (mixing_service (risk_indicators self)) as [|m ms].
  - exists "amount". reflexivity.
  - exists "to_address". cbn [fold_left]. unfold check_mixer_on at 2.
    cbn [obind getitem]. now rewrite fold_check_mixer_on_raises.
Qed.

End FrameRiskProperties.

(** C5, at the claim's own amounts on an interpreter before Python 3.12. With
    the amounts 9950, or 9899 and 10000, stored as integers and round-amount
    detection on, the rule engine raises at the round-amount rule and returns
    no finding at all; the same amounts as floats, and the integers on an
    interpreter whose [int] has [is_integer], give the structuring finding
    once for 9950 and not for 9899 and 10000. *)
Theorem structuring_rule_integer_amounts :
  check_risk_indicators_on false init integer_ledger = Raises IsIntegerAttributeError
  /\ check_risk_indicators_on false init integer_ledger_below_above
     = Raises IsIntegerAttributeError
  /\ check_risk_indicators_on false init (Table Float64 (frame_rows integer_ledger))
     = Returns [structuring_finding; round_finding]
  /\ check_risk_indicators_on false init
       (Table Float64 (frame_rows integer_ledger_below_above))
     = Returns [round_finding]
  /\ check_risk_indicators_on true init integer_ledger
     = Returns [structuring_finding; round_finding].
Proof. repeat split; vm_compute; reflexivity. Qed.

(** C8, on the frame of an empty record list. The filter of lines 26-29
    raises [KeyError] on the frame without columns; on a frame with its
    columns, empty or not, it returns the rows whose sender or recipient is
    the address, in order, as a frame of the same dtype. *)
Theorem filter_frame_by_address_columns (a : string) :
  filter_frame_by_address NoColumns a = Raises (ColumnKeyError "from_address")
  /\ (forall dtype T,
        filter_frame_by_address (Table dtype T) a
        = Returns (Table dtype (List.filter (involves a) T)))
  /\ (forall dtype, filter_frame_by_address (Table dtype []) a = Returns (Table dtype [])).
Proof.
  split; [reflexivity|]. split.
  - intros dtype T. now rewrite filter_frame_table, filter_by_address_filter.
  - reflexivity.
Qed.

Section FrameRuleProperties.

Variable int_has_is_integer : bool.

(** X1. The round-amount rule, case by case. With detection off the rule
    engine returns findings without the round-number finding. With detection
    on and a float64 amount column the finding is there once when some
    amount is a whole number and not at all otherwise. With detection on and
    an int64 amount column with at least one row, the engine raises
    [AttributeError] when [int] has no [is_integer], and returns the finding
    once when it has. On a frame with columns and no rows the finding is
    never there. *)
Theorem round_amount_rule_on (self : CryptoTransactionAnalyzer)
    (dtype : AmountDtype) (rows : list Transaction) :
  let out := check_risk_indicators_on int_has_is_integer self (Table dtype rows) in
  let flag := round_amounts (suspicious_patterns (risk_indicators self)) in
  let whole := exists t, In t rows /\ exists z : Z, (amount t == inject_Z z)%Q in
  (flag = false ->
   exists risks, out = Returns risks /\ ~ In round_finding risks)
  /\ (flag = true -> dtype = Float64 ->
      exists risks,
        out = Returns risks
        /\ (count_occ string_dec risks round_finding = 1 <-> whole)
        /\ (count_occ string_dec risks round_finding = 0 <-> ~ whole))
  /\ (flag = true -> dtype = Int64 -> rows <> [] -> int_has_is_integer = false ->
      out = Raises IsIntegerAttributeError)
  /\ (flag = true -> dtype = Int64 -> rows <> [] -> int_has_is_integer = true ->
      exists risks,
        out = Returns risks /\ count_occ string_dec risks round_finding = 1)
  /\ (rows = [] ->
      exists risks, out = Returns risks /\ ~ In round_finding risks).
Proof.
  cbv zeta.
  assert (Hint : forall b : bool,
             count_occ string_dec
               (int_findings self rows) round_finding
             = if round_amounts (suspicious_patterns (risk_indicators self))
                  && negb (length rows =? 0) then 1 else 0).
  { intros _. unfold int_findings. rewrite !count_occ_app.
    rewrite count_occ_mixing_other by apply mixing_finding_not_round.
    destruct (py_any (map near_threshold rows)); destruct (_ && _); reflexivity. }
  assert (Hw : py_any (map (fun t => is_integer (amount t)) rows) = true <->
               exists t, In t rows /\ exists z : Z, (amount t == inject_Z z)%Q).
  { rewrite py_any_map. split; intros (t & Hin & H); exists t; split; auto;
      now apply is_integer_iff. }
  split; [|split; [|split; [|split]]].
  - intros Hflag. destruct dtype.
    + rewrite check_risk_indicators_on_int, Hflag. cbn [andb].
      eexists. split; [reflexivity|].
      rewrite (count_occ_not_In string_dec), (Hint true), Hflag. reflexivity.
    + rewrite check_risk_indicators_on_float. eexists. split; [reflexivity|].
      rewrite (count_occ_not_In string_dec), count_round, Hflag. reflexivity.
  - intros Hflag ->. rewrite check_risk_indicators_on_float.
    eexists. split; [reflexivity|]. rewrite count_round, Hflag, <- Hw. cbn [andb].
    destruct (py_any _).
    + split; [tauto | split; [discriminate | intros H; now contradiction H]].
    + split; [split; discriminate | split; [discriminate | reflexivity]].
  - intros Hflag -> Hne ->. rewrite check_risk_indicators_on_int, Hflag.
    destruct rows; [congruence | reflexivity].
  - intros Hflag -> Hne ->. rewrite check_risk_indicators_on_int, Hflag.
    rewrite andb_false_r. eexists. split; [reflexivity|].
    rewrite (Hint true), Hflag. destruct rows; [congruence | reflexivity].
  - intros ->. destruct dtype.
    + rewrite check_risk_indicators_on_int. cbn [length Nat.eqb negb andb].
      rewrite andb_false_r. cbn [andb]. eexists. split; [reflexivity|].
      rewrite (count_occ_not_In string_dec), (Hint true). cbn [length Nat.eqb negb].
      now rewrite andb_false_r.
    + rewrite check_risk_indicators_on_float. eexists. split; [reflexivity|].
      rewrite (count_occ_not_In string_dec), count_round. cbn [map py_any].
      now rewrite andb_false_r.
Qed.

End FrameRuleProperties.

Lemma round_amount_rule_on_witness :
  check_risk_indicators_on false init
    (Table Int64 [mk_tx "2024-01-01T10:00:00" "A" "B" 2])
  = Raises IsIntegerAttributeError
  /\ exists risks,
       check_risk_indicators_on false init
         (Table Float64 [mk_tx "2024-01-01T10:00:00" "A" "B" 2.5])
       = Returns risks
       /\ count_occ string_dec risks round_finding = 0.
Proof.
  split.
  - apply (proj1 (proj2 (proj2 (round_amount_rule_on false init Int64
                                  [mk_tx "2024-01-01T10:00:00" "A" "B" 2]))));
      [reflexivity | reflexivity | discriminate | reflexivity].
  - destruct (proj1 (proj2 (round_amount_rule_on false init Float64
                              [mk_tx "2024-01-01T10:00:00" "A" "B" 2.5]))
                eq_refl eq_refl) as (risks & Hr & _ & H0).
    exists risks. split; [exact Hr|]. apply (proj2 H0).
    intros (t & [<- | []] & z & Hz). unfold Qeq in Hz. simpl in Hz. lia.
Defined.

(** ** Velocity and the orchestrator *)

Lemma analyze_counterparties_on_table (a : string) (dtype : AmountDtype)
    (rows : list Transaction) :
  analyze_counterparties_on a (Table dtype rows)
  = Returns (analyze_counterparties a rows).
Proof. reflexivity. Qed.

Section FrameAnalysisProperties.

Variable int_has_is_integer : bool.

Variable to_datetime : string -> option Z.

Lemma calculate_velocity_on_empty (st : list Frame) (r : nat) (fr : Frame) :
  st !! r = Some fr -> frame_rows fr = [] ->
  calculate_velocity_on to_datetime r st
  = (Returns {| hourly_avg := 0; daily_avg := 0 |}, st).
Proof.
  intros H Hrows. unfold calculate_velocity_on, fbind, fframe.
  rewrite H, Hrows. reflexivity.
Qed.

Lemma calculate_velocity_on_table (st : list Frame) (r : nat) (dtype : AmountDtype)
    (rows : list Transaction) :
  st !! r = Some (Table dtype rows) -> rows <> [] ->
  calculate_velocity_on to_datetime r st
  = match column_to_datetime to_datetime (map timestamp rows) with
    | Some stamps =>
        (Returns (velocity_metrics (length rows) (time_range_of stamps)),
         <[r := Table dtype (with_parsed_timestamps rows stamps)]> st)
    | None => (Raises DatetimeParseError, st)
    end.
Proof.
  intros H Hne.
  assert (Hr : r < length st) by (eapply lookup_lt_Some; eauto).
  unfold calculate_velocity_on, fbind at 1, fframe at 1. rewrite H.
  destruct rows as [|t rows]; [congruence|]. cbn [frame_rows length Nat.eqb].
  unfold fbind at 1, flift at 1. cbn [getitem].
  unfold fbind at 1, fpd_to_datetime.
  destruct (column_to_datetime to_datetime (map timestamp (t :: rows)))
    as [stamps|] eqn:Hparse; [|reflexivity].
  pose proof (column_to_datetime_length _ _ _ Hparse) as Hlen.
  rewrite length_map in Hlen.
  assert (Hcells : length (map TsStamp stamps) = length (t :: rows))
    by now rewrite length_map.
  unfold fret at 1, fbind at 1, fsetitem_timestamp. rewrite H.
  unfold fbind at 1, fframe at 1. rewrite list_lookup_insert_eq by assumption.
  unfold fbind at 1, flift. cbn [getitem].
  rewrite assign_timestamp_column by assumption.
  unfold fbind at 1, fseries_max. rewrite stamps_of_TsStamp.
  destruct stamps as [|ns l]; [discriminate|].
  unfold fret at 1, fbind at 1, fseries_min. rewrite stamps_of_TsStamp.
  unfold fret at 1, fbind, fframe. rewrite list_lookup_insert_eq by assumption.
  cbn [frame_rows]. rewrite assign_timestamp_length by assumption.
  reflexivity.
Qed.

Lemma calculate_velocity_on_dangling (st : list Frame) (r : nat) :
  st !! r = None -> calculate_velocity_on to_datetime r st = (Raises NoSuchFrame, st).
Proof.
  intros H. unfold calculate_velocity_on, fbind, fframe. now rewrite H.
Qed.

Lemma calculate_velocity_on_store (st : list Frame) (r : nat) :
  snd (calculate_velocity_on to_datetime r st) = st
  \/ exists fr, snd (calculate_velocity_on to_datetime r st) = <[r := fr]> st.
Proof.
  destruct (st !! r) as [[|dtype rows]|] eqn:H.
  - left. now rewrite (calculate_velocity_on_empty st r NoColumns).
  - destruct rows as [|t rows].
    + left. now rewrite (calculate_velocity_on_empty st r (Table dtype [])).
    + rewrite (calculate_velocity_on_table st r dtype (t :: rows)) by (auto; discriminate).
      destruct (column_to_datetime to_datetime (map timestamp (t :: rows)));
        [right; eauto | now left].
  - left. now rewrite calculate_velocity_on_dangling.
Qed.

(** One run of [analyze_wallet] on a frame with its columns. *)
Lemma analyze_wallet_on_table (self : CryptoTransactionAnalyzer) (a : string)
    (st : list Frame) (r : nat) (dtype : AmountDtype) (T : list Transaction) :
  st !! r = Some (Table dtype T) ->
  analyze_wallet_on int_has_is_integer to_datetime self a r st
  = let w := filter_by_address T a in
    match check_risk_indicators_on int_has_is_integer self (Table dtype w) with
    | Raises e => (Raises e, st ++ [Table dtype w])
    | Returns risks =>
        match calculate_velocity_on to_datetime (length st) (st ++ [Table dtype w]) with
        | (Returns vel, st') =>
            (Returns {| address := a;
                        total_transactions := length w;
                        total_volume := series_sum (map amount w);
                        found_risk_indicators := risks;
                        transaction_velocity := vel;
                        counterparties := analyze_counterparties a w |}, st')
        | (Raises e, st') => (Raises e, st')
        end
    end.
Proof.
  intros H. cbv zeta. set (w := filter_by_address T a).
  assert (Hw : (st ++ [Table dtype w]) !! length st = Some (Table dtype w))
    by now apply list_lookup_middle.
  unfold analyze_wallet_on, fbind at 1, fframe at 1. rewrite H.
  unfold fbind at 1, flift at 1. rewrite filter_frame_table. fold w.
  unfold fbind at 1, fnew_frame. unfold fbind at 1, fframe at 1. rewrite Hw.
  unfold fbind at 1, flift at 1. cbn [getitem frame_rows].
  unfold fbind at 1, flift at 1.
  destruct (check_risk_indicators_on int_has_is_integer self (Table dtype w))
    as [risks | e]; [|reflexivity].
  unfold fbind at 1.
  destruct w as [|t w'] eqn:Ew.
  - rewrite (calculate_velocity_on_empty _ _ _ Hw eq_refl).
    unfold fbind, fframe, flift, fret. rewrite Hw. reflexivity.
  - rewrite (calculate_velocity_on_table _ _ _ _ Hw) by discriminate.
    destruct (column_to_datetime to_datetime (map timestamp (t :: w')))
      as [stamps|] eqn:Hparse; [|reflexivity].
    pose proof (column_to_datetime_length _ _ _ Hparse) as Hlen.
    rewrite length_map in Hlen.
    unfold fbind, fframe, flift, fret.
    rewrite list_lookup_insert_eq by (rewrite length_app; simpl; lia).
    rewrite analyze_counterparties_on_table. unfold with_parsed_timestamps.
    rewrite analyze_counterparties_assign by now rewrite length_map.
    reflexivity.
Qed.

Lemma analyze_wallet_on_nocolumns (self : CryptoTransactionAnalyzer) (a : string)
    (st : list Frame) (r : nat) :
  st !! r = Some NoColumns ->
  analyze_wallet_on int_has_is_integer to_datetime self a r st
  = (Raises (ColumnKeyError "from_address"), st).
Proof.
  intros H. unfold analyze_wallet_on, fbind, fframe. now rewrite H.
Qed.

(** C1. Running the analysis leaves the transaction set it is given, and
    every other frame there is, exactly as it was: whatever the kind of the
    frame, and whether the analysis returns or raises, the frames of the
    store before the call are the same frames after it. The velocity
    computation inside writes to the filtered copy only. *)
Theorem analyze_wallet_leaves_input (self : CryptoTransactionAnalyzer) (a : string)
    (st : list Frame) (r : nat) :
  take (length st)
    (snd (analyze_wallet_on int_has_is_integer to_datetime self a r st)) = st
  /\ forall T,
       st !! r = Some T ->
       snd (analyze_wallet_on int_has_is_integer to_datetime self a r st) !! r
       = Some T.
Proof.
  assert (Htake : take (length st)
                    (snd (analyze_wallet_on int_has_is_integer to_datetime self a r st))
                  = st).
  { destruct (st !! r) as [[|dtype T]|] eqn:H.
    - rewrite (analyze_wallet_on_nocolumns self a st r H). cbn [snd].
      apply take_ge. lia.
    - rewrite (analyze_wallet_on_table self a st r dtype T H). cbv zeta.
      set (w := filter_by_address T a).
      destruct (check_risk_indicators_on int_has_is_integer self (Table dtype w));
        [|cbn [snd]; apply take_app_length].
      assert (Hv : take (length st)
                     (snd (calculate_velocity_on to_datetime (length st)
                             (st ++ [Table dtype w]))) = st).
      { destruct (calculate_velocity_on_store (st ++ [Table dtype w]) (length st))
          as [-> | (fr & ->)].
        - apply take_app_length.
        - rewrite take_insert_ge by lia. apply take_app_length. }
      destruct (calculate_velocity_on to_datetime (length st) (st ++ [Table dtype w]))
        as [[vel | e] st']; exact Hv.
    - unfold analyze_wallet_on, fbind, fframe. rewrite H. cbn [snd].
      apply take_ge. lia. }
  split; [exact Htake|].
  intros T HT.
  assert (Hr : r < length st) by (eapply lookup_lt_Some; eauto).
  rewrite <- (lookup_take_lt _ (length st) r Hr), Htake. exact HT.
Qed.

End FrameAnalysisProperties.

Lemma analyze_wallet_leaves_input_witness :
  snd (analyze_wallet_on false iso8601 init "A" 0 [Table Float64 example_transactions])
    !! 0
  = Some (Table Float64 example_transactions).
Proof.
  apply (proj2 (analyze_wallet_leaves_input false iso8601 init "A"
                  [Table Float64 example_transactions] 0)).
  reflexivity.
Defined.

Lemma int_findings_nil (self : CryptoTransactionAnalyzer) : int_findings self [] = [].
Proof.
  unfold int_findings. cbn [map py_any length Nat.eqb negb].
  rewrite andb_false_r, !app_nil_r.
  induction (mixing_service (risk_indicators self)) as [|m ms IH];
    [reflexivity | exact IH].
Qed.

Section FrameOutcomeProperties.

Variable int_has_is_integer : bool.

Variable to_datetime : string -> option Z.

(** C7, on the frame of an empty record list. For that frame, in which no
    address appears, [analyze_wallet] raises [KeyError] at line 27 instead
    of returning the zero analysis. On every frame that has its columns,
    whatever the dtype of the amounts, an address that is neither sender nor
    recipient of any row gets the zero analysis. *)
Theorem analyze_absent_address_on (self : CryptoTransactionAnalyzer) (a : string) :
  fst (analyze_wallet_on int_has_is_integer to_datetime self a 0 [NoColumns])
  = Raises (ColumnKeyError "from_address")
  /\ forall (st : list Frame) (r : nat) (dtype : AmountDtype) (T : list Transaction),
       st !! r = Some (Table dtype T) ->
       (forall t, In t T -> from_address t <> a /\ to_address t <> a) ->
       fst (analyze_wallet_on int_has_is_integer to_datetime self a r st)
       = Returns
           {| address := a;
              total_transactions := 0;
              total_volume := 0;
              found_risk_indicators := [];
              transaction_velocity := {| hourly_avg := 0; daily_avg := 0 |};
              counterparties :=
                {| unique_counterparties := 0; top_counterparties := [] |} |}.
Proof.
  split.
  - now rewrite (analyze_wallet_on_nocolumns int_has_is_integer to_datetime self a
                   [NoColumns] 0 eq_refl).
  - intros st r dtype T HT Ha.
    rewrite (analyze_wallet_on_table int_has_is_integer to_datetime self a st r dtype T HT).
    cbv zeta. rewrite (filter_absent to_datetime T a Ha).
    assert (Hrisks : check_risk_indicators_on int_has_is_integer self (Table dtype [])
                     = Returns []).
    { destruct dtype.
      - rewrite check_risk_indicators_on_int. cbn [length Nat.eqb negb].
        rewrite andb_false_r. cbn [andb]. now rewrite int_findings_nil.
      - now rewrite check_risk_indicators_on_float, check_risk_indicators_nil. }
    rewrite Hrisks.
    rewrite (calculate_velocity_on_empty to_datetime _ _ (Table dtype []))
      by (try apply list_lookup_middle; reflexivity).
    reflexivity.
Qed.

(** X12. The outcome of [analyze_wallet], case by case. On the frame without
    columns it raises [KeyError]. On a frame with columns: when no row
    involves the address it returns; when some row does, round-amount
    detection is on, the amounts are int64 and [int] has no [is_integer], it
    raises [AttributeError] before any timestamp is parsed; in the remaining
    case it returns when the timestamps of the wallet's rows parse and raises
    the parser's error when they do not. Timestamps of rows that do not
    involve the address are not parsed. *)
Theorem analyze_wallet_on_outcome (self : CryptoTransactionAnalyzer) (a : string)
    (st : list Frame) (r : nat) (fr : Frame) (Hfr : st !! r = Some fr) :
  let out := fst (analyze_wallet_on int_has_is_integer to_datetime self a r st) in
  let flag := round_amounts (suspicious_patterns (risk_indicators self)) in
  (fr = NoColumns -> out = Raises (ColumnKeyError "from_address"))
  /\ forall dtype T,
       fr = Table dtype T ->
       let w := filter_by_address T a in
       (w = [] -> exists res, out = Returns res)
       /\ (w <> [] -> flag = true -> dtype = Int64 -> int_has_is_integer = false ->
           out = Raises IsIntegerAttributeError)
       /\ (w <> [] -> flag = false \/ dtype = Float64 \/ int_has_is_integer = true ->
           (forall stamps,
              column_to_datetime to_datetime (map timestamp w) = Some stamps ->
              exists res, out = Returns res)
           /\ (column_to_datetime to_datetime (map timestamp w) = None ->
               out = Raises DatetimeParseError)).
Proof.
  cbv zeta. split.
  - intros ->. now rewrite (analyze_wallet_on_nocolumns _ _ self a st r Hfr).
  - intros dtype T ->.
    rewrite (analyze_wallet_on_table int_has_is_integer to_datetime self a st r dtype T Hfr).
    cbv zeta. set (w := filter_by_address T a).
    assert (Hw : (st ++ [Table dtype w]) !! length st = Some (Table dtype w))
      by now apply list_lookup_middle.
    assert (Hcheck :
              check_risk_indicators_on int_has_is_integer self (Table dtype w)
              = if round_amounts (suspicious_patterns (risk_indicators self))
                   && negb (length w =? 0) && negb int_has_is_integer
                   && match dtype with Int64 => true | Float64 => false end
                then Raises IsIntegerAttributeError
                else Returns (match dtype with
                              | Int64 => int_findings self w
                              | Float64 => check_risk_indicators self w
                              end)).
    { destruct dtype.
      - rewrite check_risk_indicators_on_int. now rewrite andb_true_r.
      - rewrite check_risk_indicators_on_float. now rewrite andb_false_r. }
    rewrite Hcheck. split; [|split].
    + intros Ew. rewrite Ew in *. cbn [length Nat.eqb negb].
      rewrite andb_false_r. cbn [andb].
      rewrite (calculate_velocity_on_empty to_datetime _ _ _ Hw eq_refl).
      eexists. reflexivity.
    + intros Hne -> -> ->. destruct w; [congruence | reflexivity].
    + intros Hne Hok.
      assert (Hno : round_amounts (suspicious_patterns (risk_indicators self))
                    && negb (length w =? 0) && negb int_has_is_integer
                    && match dtype with Int64 => true | Float64 => false end = false).
      { destruct Hok as [-> | [-> | ->]]; cbn [negb];
          rewrite ?andb_false_r; reflexivity. }
      rewrite Hno.
      rewrite (calculate_velocity_on_table to_datetime _ _ _ _ Hw Hne).
      split.
      * intros stamps ->. eexists. reflexivity.
      * intros ->. reflexivity.
Qed.

End FrameOutcomeProperties.

Lemma analyze_absent_address_on_witness :
  fst (analyze_wallet_on false iso8601 init "C" 0 [integer_ledger])
  = Returns
      {| address := "C";
         total_transactions := 0;
         total_volume := 0;
         found_risk_indicators := [];
         transaction_velocity := {| hourly_avg := 0; daily_avg := 0 |};
         counterparties :=
           {| unique_counterparties := 0; top_counterparties := [] |} |}.
Proof.
  apply (proj2 (analyze_absent_address_on false iso8601 init "C")
           [integer_ledger] 0 Int64 (frame_rows integer_ledger) eq_refl).
  intros t [<- | []]. split; discriminate.
Defined.

Lemma analyze_wallet_on_outcome_witness :
  fst (analyze_wallet_on false iso8601 init "A" 0 [integer_ledger])
  = Raises IsIntegerAttributeError
  /\ exists res,
       fst (analyze_wallet_on false iso8601 init "A" 0
              [Table Float64 dirty_transactions]) = Returns res.
Proof.
  split.
  - apply (proj1 (proj2 (proj2 (analyze_wallet_on_outcome false iso8601 init "A"
                                  [integer_ledger] 0 integer_ledger eq_refl)
                           Int64 (frame_rows integer_ledger) eq_refl)));
      [discriminate | reflexivity | reflexivity | reflexivity].
  - eapply (proj1 (proj2 (proj2 (proj2 (analyze_wallet_on_outcome false iso8601 init "A"
                                          [Table Float64 dirty_transactions] 0 _ eq_refl)
                                   Float64 dirty_transactions eq_refl))
                     ltac:(discriminate) (or_intror (or_introl eq_refl)))).
    vm_compute. reflexivity.
Defined.
